(** * Add-on package signing: [lib/crypto/packaged.py]

    A shallow embedding of the signing module and its properties.

    The module is effectful Python: it reads and renames files, posts to a
    signing service, updates a database row and logs.  The embedding threads
    an explicit [World] (file system, the [cert_serial_num] column, and a
    chronological trace of every effect) through a state-and-exception
    monad [M].  Everything the module imports from third-party libraries
    ([tempfile], [signing_clients.apps], [requests], [json]/[base64],
    [os.rename]) is taken from a record of oracles, [Externals]; the
    ambient [settings] object and the constant [amo.STATUS_PUBLIC] are
    parameters as well.

    What the model takes for granted:
    - one step of the trace is one indivisible effect; in particular
      [os.rename] is a single step, as the operating system promises;
    - [storage.open] and [os.rename] name files in the same way;
    - the libraries answer as functions of their arguments;
    - [JarExtractor] writes to its output path only, and only in
      [make_signed];
    - nothing else changes the files while one file is being signed. *)

From Stdlib Require Import ZArith String List Bool Lia.
From stdpp Require Import base option gmap strings list pretty.

Open Scope Z_scope.
Open Scope string_scope.

(** ** Data *)

Abbreviation bytes := (list Byte.byte).

(** A Python value that is not [None]; only its truthiness matters here
    (the certificate serial number is tested with [if cert_serial_num:]). *)
Inductive pyval :=
| PyInt (n : Z)
| PyStr (s : string).

Definition truthy (v : pyval) : bool :=
  match v with
  | PyInt n => negb (Z.eqb n 0)
  | PyStr s => negb (String.eqb s "")
  end.

(** [django.conf.settings], the three keys the module reads.  A server
    setting is [None], or a string that may be empty. *)
Record Settings := {
  SIGNING_SERVER : option string;
  PRELIMINARY_SIGNING_SERVER : option string;
  SIGNING_SERVER_TIMEOUT : Z
}.

(** A [File] row together with what the module reaches through it:
    [file_obj.version.addon.slug] and [file_obj.version.version]. *)
Record File := {
  pk : Z;
  status : Z;
  file_path : string;
  can_be_signed : bool;
  addon_slug : string;
  version_string : string
}.

Record Version := {
  version_pk : Z;
  all_files : list File
}.

(** The form posted to the signing service. *)
Record Request := {
  req_endpoint : string;
  req_timeout : Z;
  req_addon_id : string;
  req_file : string * string
}.

Record Response := {
  status_code : Z;
  reason : string;
  content : string
}.

(** What [requests.post] can do: answer, raise [HTTPError] (whose
    [error.response.status] attribute may itself be missing), or raise
    anything else. *)
Inductive PostOutcome :=
| PostResponse (r : Response)
| PostHTTPError (response_status : option string) (error : string)
| PostFailure.

Inductive level := INFO | WARNING | ERROR.

(** Every effect the module has on the outside, in the order it happens. *)
Inductive event :=
| EvCreate (p : string)                 (* create or truncate a file *)
| EvUnlink (p : string)                 (* delete a file *)
| EvRead (p : string)                   (* open a file for reading *)
| EvWrite (p : string) (chunk : bytes)  (* append to a file *)
| EvRename (src dst : string)           (* os.rename *)
| EvPost (req : Request)                (* requests.post *)
| EvUpdate (pk : Z) (serial : pyval)    (* file_obj.update(cert_serial_num=..) *)
| EvTiming (stat : string)              (* statsd.timer(..) leaving its block *)
| EvLog (lvl : level) (msg : string).

Record World := {
  fs : gmap string bytes;
  db : gmap Z pyval;
  trace : list event
}.

Inductive exn :=
| SigningError (msg : string)
| OtherException (name : string).

Inductive result (A : Type) :=
| Ok (a : A)
| Raise (e : exn).
Arguments Ok {A} a.
Arguments Raise {A} e.

(** The third-party libraries.  [mktemp] is the name
    [tempfile.NamedTemporaryFile] picks, which names no existing file;
    [jar_signatures] is [JarExtractor(..).signatures] ([None]: the
    constructor raises); [zigbert_rsa] is
    [b64decode(json.loads(content)['zigbert.rsa'])]; [jar_make_signed]
    gives the chunks [JarExtractor.make_signed] writes to its output path
    and whether it finishes without raising; [rename_permitted] is whether
    the operating system lets [os.rename] go through. *)
Record Externals := {
  mktemp : gmap string bytes -> string;
  mktemp_fresh : forall m, m !! mktemp m = None;
  jar_signatures : bytes -> option string;
  requests_post : Request -> PostOutcome;
  zigbert_rsa : string -> option bytes;
  get_signature_serial_number : bytes -> option pyval;
  jar_make_signed : bytes -> bytes -> list bytes * bool;
  rename_permitted : string -> string -> bool
}.

(** ** The monad *)

Definition M (A : Type) : Type := World -> result A * World.

Definition ret {A} (a : A) : M A := fun w => (Ok a, w).

Definition bind {A B} (m : M A) (k : A -> M B) : M B :=
  fun w =>
    match m w with
    | (Ok a, w') => k a w'
    | (Raise e, w') => (Raise e, w')
    end.

Definition raise {A} (e : exn) : M A := fun w => (Raise e, w).

(** [try: body / except ..: handler], the handler seeing the exception. *)
Definition try_except {A} (body : M A) (handler : exn -> M A) : M A :=
  fun w =>
    match body w with
    | (Ok a, w') => (Ok a, w')
    | (Raise e, w') => handler e w'
    end.

Notation "'let*' x ':=' c1 'in' c2" := (bind c1 (fun x => c2))
  (at level 10, x name, c1 at level 100, c2 at level 200).
Notation "c1 >> c2" := (bind c1 (fun _ => c2))
  (at level 62, right associativity).

(** ** Effects *)

Definition fs_apply (e : event) (m : gmap string bytes) : gmap string bytes :=
  match e with
  | EvCreate p => <[p := []]> m
  | EvUnlink p => delete p m
  | EvWrite p chunk => alter (fun old => (old ++ chunk)%list) p m
  | EvRename src dst =>
      match m !! src with
      | Some b => <[dst := b]> (delete src m)
      | None => m
      end
  | _ => m
  end.

Definition db_apply (e : event) (d : gmap Z pyval) : gmap Z pyval :=
  match e with
  | EvUpdate k serial => <[k := serial]> d
  | _ => d
  end.

(** The world after one more effect, and after a run of them. *)
Definition push (e : event) (w : World) : World :=
  {| fs := fs_apply e (fs w);
     db := db_apply e (db w);
     trace := (trace w ++ [e])%list |}.

Definition push_all (evs : list event) (w : World) : World :=
  fold_left (fun w e => push e w) evs w.

Definition emit (e : event) : M unit := fun w => (Ok tt, push e w).

Definition get_fs : M (gmap string bytes) := fun w => (Ok (fs w), w).

(** The file system after a run of events. *)
Definition replay (evs : list event) (m : gmap string bytes) : gmap string bytes :=
  fold_left (fun m e => fs_apply e m) evs m.

(** Does the event change what is at path [p]? *)
Definition touches (p : string) (e : event) : bool :=
  match e with
  | EvCreate q | EvUnlink q | EvWrite q _ => bool_decide (q = p)
  | EvRename src dst => bool_decide (src = p) || bool_decide (dst = p)
  | _ => false
  end.

Definition is_post (e : event) : bool :=
  match e with EvPost _ => true | _ => false end.

(** Events that leave every file as it is. *)
Definition no_fs_effect (e : event) : bool :=
  match e with
  | EvCreate _ | EvUnlink _ | EvWrite _ _ | EvRename _ _ => false
  | _ => true
  end.

(** Events that leave the [cert_serial_num] column as it is. *)
Definition no_db_effect (e : event) : bool :=
  match e with EvUpdate _ _ => false | _ => true end.

Definition log (lvl : level) (msg : string) : M unit := emit (EvLog lvl msg).

(** [with statsd.timer(stat): body]: the timing is sent when the block is
    left, normally or by an exception. *)
Definition with_timer {A} (stat : string) (body : M A) : M A :=
  fun w =>
    match body w with
    | (r, w') => (r, push (EvTiming stat) w')
    end.

(** ** The module *)

Section Packaged.

Variable STATUS_PUBLIC : Z.          (* amo.STATUS_PUBLIC *)
Variable settings : Settings.
Variable X : Externals.

(** [with tempfile.NamedTemporaryFile() as temp_file]: the file is
    created under a fresh name and deleted when the block ends; only the
    name survives. *)
Definition NamedTemporaryFile : M string :=
  let* m := get_fs in
  let name := mktemp X m in
  emit (EvCreate name) >>
  emit (EvUnlink name) >>
  ret name.

(** [storage.open(path)]: raises when there is no such file. *)
Definition storage_open (path : string) : M bytes :=
  let* m := get_fs in
  match m !! path with
  | Some b => emit (EvRead path) >> ret b
  | None => raise (OtherException "IOError")
  end.

(** The [JarExtractor] object: the archive it reads, the path it will
    write to, and the signature manifest it computed. *)
Record Jar := {
  jar_in : bytes;
  jar_out : string;
  signatures : string
}.

Definition JarExtractor (path outpath : string) : M Jar :=
  let* b := storage_open path in
  match jar_signatures X b with
  | Some sigs => ret {| jar_in := b; jar_out := outpath; signatures := sigs |}
  | None => raise (OtherException "BadZipfile")
  end.

Fixpoint write_all (p : string) (chunks : list bytes) : M unit :=
  match chunks with
  | [] => ret tt
  | c :: rest => emit (EvWrite p c) >> write_all p rest
  end.

(** [jar.make_signed(pkcs7)]: writes a new archive to the output path,
    piece by piece. *)
Definition make_signed (jar : Jar) (pkcs7 : bytes) : M unit :=
  let '(chunks, finished) := jar_make_signed X (jar_in jar) pkcs7 in
  emit (EvCreate (jar_out jar)) >>
  write_all (jar_out jar) chunks >>
  if finished then ret tt else raise (OtherException "make_signed").

(** [os.rename(src, dst)]. *)
Definition os_rename (src dst : string) : M unit :=
  let* m := get_fs in
  match m !! src with
  | Some _ =>
      if rename_permitted X src dst then emit (EvRename src dst)
      else raise (OtherException "OSError")
  | None => raise (OtherException "OSError")
  end.

Definition requests_post_call (req : Request) : M PostOutcome :=
  emit (EvPost req) >> ret (requests_post X req).

(** [file_obj.update(cert_serial_num=..)]. *)
Definition update (file_obj : File) (cert_serial_num : pyval) : M unit :=
  emit (EvUpdate (pk file_obj) cert_serial_num).

(** [get_endpoint], lines 24-32. *)
Definition get_endpoint (file_obj : File) : option string :=
  let server := SIGNING_SERVER settings in
  let server :=
    if negb (Z.eqb (status file_obj) STATUS_PUBLIC)
    then PRELIMINARY_SIGNING_SERVER settings
    else server in
  match server with
  | None => None
  | Some s => if String.eqb s "" then None else Some (s +:+ "/1.0/sign_addon")
  end.

(** The [try: requests.post(..) except HTTPError / except:] block and
    the status check after it, lines 68-88. *)
Definition post_signature (endpoint : string) (timeout : Z)
    (addon_id : string) (jar : Jar) : M Response :=
  let* outcome :=
    with_timer "services.sign.addon"
      (requests_post_call
         {| req_endpoint := endpoint; req_timeout := timeout;
            req_addon_id := addon_id;
            req_file := ("zigbert.sf", signatures jar) |}) in
  match outcome with
  | PostHTTPError response_status error =>
      match response_status with
      | Some st =>
          let msg := "Posting to add-on signing failed: " +:+ st +:+ ", " +:+ error in
          log ERROR msg >> raise (SigningError msg)
      | None => raise (OtherException "AttributeError")
      end
  | PostFailure =>
      let msg := "Posting to add-on signing failed" in
      log ERROR msg >> raise (SigningError msg)
  | PostResponse response =>
      if negb (Z.eqb (status_code response) 200) then
        let msg := "Posting to add-on signing failed " +:+ reason response in
        log ERROR msg >> raise (SigningError msg)
      else ret response
  end.

(** Lines 90-99 of [call_signing]: decode the certificate, read its
    serial number, write the signed archive to the temporary path and
    move it over the file. *)
Definition apply_signature (file_obj : File) (temp_filename : string)
    (jar : Jar) (response : Response) : M (option pyval) :=
  let* pkcs7 :=
    match zigbert_rsa X (content response) with
    | Some b => ret b
    | None => raise (OtherException "ValueError")
    end in
  let* cert_serial_num :=
    try_except
      (let* serial :=
         match get_signature_serial_number X pkcs7 with
         | Some n => ret n
         | None => raise (OtherException "get_signature_serial_number")
         end in
       make_signed jar pkcs7 >>
       ret serial)
      (fun _ =>
         let msg := "Addon signing failed" in
         log ERROR msg >> raise (SigningError msg)) in
  os_rename temp_filename (file_path file_obj) >>
  ret (Some cert_serial_num).

(** [call_signing], lines 35-99. *)
Definition call_signing (file_obj : File) : M (option pyval) :=
  let not_signing :=
    log WARNING "Not signing: no active endpoint" >> ret None in
  match get_endpoint file_obj with
  | None => not_signing
  | Some endpoint =>
    if String.eqb endpoint "" then not_signing else
    let timeout := SIGNING_SERVER_TIMEOUT settings in
    let* temp_filename := NamedTemporaryFile in
    let* jar :=
      try_except (JarExtractor (file_path file_obj) temp_filename)
        (fun _ =>
           let msg := "Archive extraction failed. Bad archive?" in
           log ERROR msg >> raise (SigningError msg)) in
    log INFO ("File signature contents: " +:+ signatures jar) >>
    let addon_id := addon_slug file_obj +:+ "-" +:+ version_string file_obj in
    log INFO ("Calling signing service: " +:+ endpoint) >>
    let* response := post_signature endpoint timeout addon_id jar in
    apply_signature file_obj temp_filename jar response
  end.

(** [sign_file], lines 102-115. *)
Definition sign_file (file_obj : File) : M unit :=
  if negb (can_be_signed file_obj) then
    let msg := "Attempt to sign a non-xpi file " +:+ pretty (pk file_obj) +:+ "." in
    log ERROR msg >> raise (SigningError msg)
  else
    try_except
      (let* cert_serial_num := call_signing file_obj in
       match cert_serial_num with
       | Some serial => if truthy serial then update file_obj serial else ret tt
       | None => ret tt
       end)
      (fun e =>
         match e with
         | SigningError _ =>
             log INFO ("Signing failed for file " +:+ pretty (pk file_obj) +:+ ".") >>
             raise e
         | OtherException _ => raise e
         end) >>
    log INFO ("Signing complete for file " +:+ pretty (pk file_obj) +:+ ".").

(** The [for] loop of [sign]. *)
Fixpoint sign_each (files : list File) : M unit :=
  match files with
  | [] => ret tt
  | file_obj :: rest =>
      with_timer "services.sign.addon" (sign_file file_obj) >>
      sign_each rest
  end.

(** [sign], lines 118-129. *)
Definition sign (version : Version) : M unit :=
  match all_files version with
  | [] =>
      log ERROR ("Attempt to sign version " +:+ pretty (version_pk version)
                 +:+ " with no files.") >>
      raise (SigningError "No file")
  | _ :: _ =>
      log INFO ("Signing version: " +:+ pretty (version_pk version)) >>
      sign_each (List.filter can_be_signed (all_files version))
  end.

End Packaged.

(** ** Properties of traces used to state the claims *)

(** The archive could not be extracted: [storage.open] finds no file, or
    [JarExtractor] rejects what it reads. *)
Definition extraction_fails (X : Externals) (m : gmap string bytes) (p : string) : Prop :=
  match m !! p with
  | None => True
  | Some b => jar_signatures X b = None
  end.

(** The complete output of a [make_signed] that ran to its end on the
    archive [orig]. *)
Definition fully_signed (X : Externals) (orig signed : bytes) : Prop :=
  exists pkcs7 chunks,
    jar_make_signed X orig pkcs7 = (chunks, true) /\ signed = concat chunks.

(** What an observer of path [p] may see while [run] goes from world [w]
    to its final world: at every moment (after every prefix of the events
    of the run) the path holds the original bytes or fully signed ones;
    the only event that changes the path is the rename of the temporary
    file onto it, and it happens at most once; and a run that ends in an
    exception has not changed the path at all. *)
Definition atomic_replacement {A} (X : Externals) (p tmp : string) (orig : bytes)
    (w : World) (run : result A * World) : Prop :=
  exists evs,
    snd run = push_all evs w
    /\ (forall k : nat,
          replay (take k evs) (fs w) !! p = Some orig
          \/ exists signed, fully_signed X orig signed
                            /\ replay (take k evs) (fs w) !! p = Some signed)
    /\ (forall (i : nat) (e : event),
          evs !! i = Some e -> touches p e = true ->
          e = EvRename tmp p
          /\ forall (j : nat) (e' : event),
               evs !! j = Some e' -> touches p e' = true -> j = i)
    /\ (forall e : exn,
          fst run = Raise e ->
          forallb (fun ev => negb (touches p ev)) evs = true
          /\ fs (snd run) !! p = Some orig).

(** The form every run of the per-file operations takes: events that leave
    [p] alone, then nothing or the one rename onto [p] (the temporary file
    holding fully signed bytes at that moment, and the run not ending in an
    exception), then events without effect on files. *)
Definition replaces_once {A} (X : Externals) (p tmp : string) (orig : bytes)
    (w : World) (run : result A * World) : Prop :=
  exists pre mid tail : list event,
    snd run = push_all (pre ++ mid ++ tail) w
    /\ forallb (fun e => negb (touches p e)) pre = true
    /\ forallb no_fs_effect tail = true
    /\ (mid = []
        \/ (mid = [EvRename tmp p]
            /\ (forall e : exn, fst run <> Raise e)
            /\ exists signed, fully_signed X orig signed
                              /\ replay pre (fs w) !! tmp = Some signed)).

(** The server [get_endpoint] selects for a status, and the URL built on a
    configured server. *)
Definition selected_server (STATUS_PUBLIC : Z) (settings : Settings) (st : Z) : option string :=
  if Z.eqb st STATUS_PUBLIC then SIGNING_SERVER settings
  else PRELIMINARY_SIGNING_SERVER settings.

(** [not server] is false and the URL is built: the server is a string
    that is not empty. *)
Definition endpoint_of (server : option string) : option string :=
  match server with
  | Some s => if String.eqb s "" then None else Some (s +:+ "/1.0/sign_addon")
  | None => None
  end.

(** The request [call_signing] posts for a file, and everything that has
    happened once the service has been called: the temporary name was
    reserved, the archive opened, two lines logged, the request posted. *)
Definition signing_request (settings : Settings) (file_obj : File)
    (endpoint sigs : string) : Request :=
  {| req_endpoint := endpoint;
     req_timeout := SIGNING_SERVER_TIMEOUT settings;
     req_addon_id := addon_slug file_obj +:+ "-" +:+ version_string file_obj;
     req_file := ("zigbert.sf", sigs) |}.

Definition events_until_post (settings : Settings) (file_obj : File)
    (tmp endpoint sigs : string) : list event :=
  [EvCreate tmp; EvUnlink tmp; EvRead (file_path file_obj);
   EvLog INFO ("File signature contents: " +:+ sigs);
   EvLog INFO ("Calling signing service: " +:+ endpoint);
   EvPost (signing_request settings file_obj endpoint sigs);
   EvTiming "services.sign.addon"].

(** Something of [file_obj] was tried: its archive was opened, or
    [sign_file] reported on it. *)
Definition attempted (file_obj : File) (evs : list event) : bool :=
  existsb
    (fun e =>
       match e with
       | EvRead p => String.eqb p (file_path file_obj)
       | EvLog _ msg =>
           String.eqb msg ("Signing complete for file " +:+ pretty (pk file_obj) +:+ ".")
           || String.eqb msg ("Signing failed for file " +:+ pretty (pk file_obj) +:+ ".")
           || String.eqb msg ("Attempt to sign a non-xpi file " +:+ pretty (pk file_obj) +:+ ".")
       | _ => false
       end)
    evs.

Definition is_log (e : event) : bool :=
  match e with EvLog _ _ => true | _ => false end.

(** The effects one run of [call_signing] on the file at [p], with the
    temporary name [tmp], keeps to: it creates, writes and deletes only
    [tmp], opens only [p], renames only [tmp] onto [p], and stores no
    serial number. *)
Definition within_footprint (p tmp : string) (e : event) : bool :=
  match e with
  | EvCreate q | EvUnlink q | EvWrite q _ => String.eqb q tmp
  | EvRead q => String.eqb q p
  | EvRename src dst => String.eqb src tmp && String.eqb dst p
  | EvUpdate _ _ => false
  | _ => true
  end.

(** The effects one run of [sign_file] keeps to: those of [call_signing],
    and storing a serial number on the file's own row. *)
Definition within_sign_file_footprint (k : Z) (p tmp : string) (e : event) : bool :=
  match e with
  | EvUpdate k' _ => Z.eqb k' k
  | _ => within_footprint p tmp e
  end.

(** ** A fake signing service and archive library

    Fixed manifests and bytes, to run the module on concrete inputs. *)

Module Fixture.

Definition STATUS_UNREVIEWED : Z := 1.
Definition STATUS_PUBLIC : Z := 4.

Definition settings : Settings :=
  {| SIGNING_SERVER := Some "https://signing.example";
     PRELIMINARY_SIGNING_SERVER := Some "https://prelim.example";
     SIGNING_SERVER_TIMEOUT := 10 |}.

Definition signing_disabled : Settings :=
  {| SIGNING_SERVER := None;
     PRELIMINARY_SIGNING_SERVER := Some "";
     SIGNING_SERVER_TIMEOUT := 10 |}.

Definition xpi : bytes := list_byte_of_string "PK-unsigned-addon".
Definition xpi2 : bytes := list_byte_of_string "PK-second-addon".
Definition not_an_archive : bytes := list_byte_of_string "<html>".

Definition looks_like_zip (b : bytes) : bool :=
  match b with
  | Byte.x50 :: Byte.x4b :: _ => true
  | _ => false
  end.

(** The libraries, for a given behaviour of the service, of the
    certificate parser and of [os.rename]. *)
Definition externals (post : Request -> PostOutcome) (serial : option pyval)
    (may_rename : bool) : Externals :=
  {| mktemp := fun m => fresh (dom m);
     mktemp_fresh := fun m =>
       proj1 (not_elem_of_dom m (fresh (dom m))) (is_fresh (dom m));
     jar_signatures := fun b =>
       if looks_like_zip b then Some "SHA1-Digest-Manifest: x" else None;
     requests_post := post;
     zigbert_rsa := fun c =>
       if String.eqb c "" then None else Some (list_byte_of_string c);
     get_signature_serial_number := fun _ => serial;
     jar_make_signed := fun orig pkcs7 => ([orig; pkcs7], true);
     rename_permitted := fun _ _ => may_rename |}.

Definition answers_200 (_ : Request) : PostOutcome :=
  PostResponse {| status_code := 200; reason := "OK"; content := "MIIBzigbert" |}.

Definition answers_500 (_ : Request) : PostOutcome :=
  PostResponse {| status_code := 500; reason := "Internal Server Error"; content := "" |}.

(** A service and a parser that work; a service that answers 500; a
    certificate whose serial number is 0. *)
Definition healthy : Externals := externals answers_200 (Some (PyInt 4096)) true.
Definition failing : Externals := externals answers_500 (Some (PyInt 4096)) true.
Definition zero_serial : Externals := externals answers_200 (Some (PyInt 0)) true.

Definition public_file : File :=
  {| pk := 7; status := STATUS_PUBLIC; file_path := "/storage/7/addon.xpi";
     can_be_signed := true; addon_slug := "adblock"; version_string := "1.0" |}.

Definition unreviewed_file : File :=
  {| pk := 8; status := STATUS_UNREVIEWED; file_path := "/storage/8/addon.xpi";
     can_be_signed := true; addon_slug := "adblock"; version_string := "1.0" |}.

Definition broken_file : File :=
  {| pk := 9; status := STATUS_PUBLIC; file_path := "/storage/9/page.xpi";
     can_be_signed := true; addon_slug := "adblock"; version_string := "1.0" |}.

Definition search_plugin : File :=
  {| pk := 10; status := STATUS_PUBLIC; file_path := "/storage/10/search.xml";
     can_be_signed := false; addon_slug := "adblock"; version_string := "1.0" |}.

Definition world : World :=
  {| fs := <["/storage/7/addon.xpi" := xpi]>
           (<["/storage/8/addon.xpi" := xpi2]>
            (<["/storage/9/page.xpi" := not_an_archive]> ∅));
     db := ∅;
     trace := [] |}.

Definition empty_version : Version := {| version_pk := 3; all_files := [] |}.

(** A version whose first signable file is broken and whose second is
    a sound archive. *)
Definition mixed_version : Version :=
  {| version_pk := 4; all_files := [broken_file; search_plugin; public_file] |}.

(** More ways for the outside to misbehave: the service cannot be reached,
    raises [HTTPError], answers 200 with an empty body; the certificate does
    not parse; [make_signed] stops after its first piece; the rename is
    refused. *)
Definition unreachable : Externals :=
  externals (fun _ => PostFailure) (Some (PyInt 4096)) true.

Definition bad_gateway : Externals :=
  externals (fun _ => PostHTTPError (Some "502") "Bad Gateway") (Some (PyInt 4096)) true.

Definition answers_201 (_ : Request) : PostOutcome :=
  PostResponse {| status_code := 201; reason := "Created"; content := "MIIBzigbert" |}.

Definition created : Externals := externals answers_201 (Some (PyInt 4096)) true.

Definition answers_empty (_ : Request) : PostOutcome :=
  PostResponse {| status_code := 200; reason := "OK"; content := "" |}.

Definition empty_body : Externals := externals answers_empty (Some (PyInt 4096)) true.

Definition unparsable : Externals := externals answers_200 None true.

Definition interrupted : Externals :=
  {| mktemp := fun m => fresh (dom m);
     mktemp_fresh := fun m =>
       proj1 (not_elem_of_dom m (fresh (dom m))) (is_fresh (dom m));
     jar_signatures := fun b =>
       if looks_like_zip b then Some "SHA1-Digest-Manifest: x" else None;
     requests_post := answers_200;
     zigbert_rsa := fun c =>
       if String.eqb c "" then None else Some (list_byte_of_string c);
     get_signature_serial_number := fun _ => Some (PyInt 4096);
     jar_make_signed := fun orig pkcs7 => ([orig], false);
     rename_permitted := fun _ _ => true |}.

Definition read_only : Externals := externals answers_200 (Some (PyInt 4096)) false.

(** A version with nothing to sign in it, and one whose signable files are
    both sound. *)
Definition plugin_version : Version :=
  {| version_pk := 5; all_files := [search_plugin] |}.

Definition sound_version : Version :=
  {| version_pk := 6; all_files := [public_file; search_plugin; unreviewed_file] |}.

(** A version whose second signable file is broken, between two sound
    ones. *)
Definition late_failure_version : Version :=
  {| version_pk := 7;
     all_files := [public_file; search_plugin; broken_file; unreviewed_file] |}.

End Fixture.


(** * Theorems *)

(** ** Worlds and traces *)

Lemma push_all_app (a b : list event) (w : World) :
  push_all (a ++ b)%list w = push_all b (push_all a w).
Proof. unfold push_all. apply fold_left_app. Qed.

Lemma trace_push_all (evs : list event) (w : World) :
  trace (push_all evs w) = (trace w ++ evs)%list.
Proof.
  revert w. induction evs as [|e evs IH]; intros w; simpl.
  - now rewrite app_nil_r.
  - rewrite IH. simpl. now rewrite <- app_assoc.
Qed.

Lemma fs_push_all (evs : list event) (w : World) :
  fs (push_all evs w) = replay evs (fs w).
Proof.
  revert w. induction evs as [|e evs IH]; intros w; simpl; [reflexivity|].
  now rewrite IH.
Qed.

Lemma replay_app (a b : list event) (m : gmap string bytes) :
  replay (a ++ b)%list m = replay b (replay a m).
Proof. unfold replay. apply fold_left_app. Qed.

Lemma fs_apply_untouched (p : string) (e : event) (m : gmap string bytes) :
  touches p e = false -> fs_apply e m !! p = m !! p.
Proof.
  destruct e as [q|q|q|q c|src dst| | | |]; simpl; intros H; try reflexivity.
  - apply bool_decide_eq_false in H. now rewrite lookup_insert_ne.
  - apply bool_decide_eq_false in H. now rewrite lookup_delete_ne.
  - apply bool_decide_eq_false in H. now rewrite lookup_alter_ne.
  - apply orb_false_iff in H as [Hs Hd].
    apply bool_decide_eq_false in Hs. apply bool_decide_eq_false in Hd.
    destruct (m !! src); [|reflexivity].
    rewrite lookup_insert_ne by assumption. now rewrite lookup_delete_ne.
Qed.

Lemma replay_untouched (p : string) (evs : list event) (m : gmap string bytes) :
  forallb (fun e => negb (touches p e)) evs = true -> replay evs m !! p = m !! p.
Proof.
  revert m. induction evs as [|e evs IH]; intros m H; simpl in *; [reflexivity|].
  apply andb_true_iff in H as [He Hr].
  rewrite IH by assumption. apply fs_apply_untouched.
  now apply negb_true_iff.
Qed.

Lemma forallb_take {A} (f : A -> bool) (l : list A) (k : nat) :
  forallb f l = true -> forallb f (take k l) = true.
Proof.
  revert k. induction l as [|x l IH]; intros [|k] H; simpl in *; try reflexivity.
  apply andb_true_iff in H as [Hx Hl]. rewrite Hx. simpl. now apply IH.
Qed.

Lemma db_push_all_quiet (evs : list event) (w : World) :
  forallb no_db_effect evs = true -> db (push_all evs w) = db w.
Proof.
  revert w. induction evs as [|e evs IH]; intros w H; simpl in *; [reflexivity|].
  apply andb_true_iff in H as [He Hr]. rewrite IH by assumption.
  destruct e; simpl in *; congruence.
Qed.

(** A fresh file that is created and deleted again leaves the file system
    as it was. *)
Lemma create_unlink_fresh (p : string) (m : gmap string bytes) :
  m !! p = None -> replay [EvCreate p; EvUnlink p] m = m.
Proof. intros H. simpl. now rewrite delete_insert_id. Qed.

Lemma write_all_run (p : string) (chunks : list bytes) (w : World) :
  write_all p chunks w = (Ok tt, push_all (map (EvWrite p) chunks) w).
Proof.
  revert w. induction chunks as [|c rest IH]; intros w; simpl; [reflexivity|].
  unfold bind, emit. now rewrite IH.
Qed.

Lemma replay_writes (p : string) (chunks : list bytes) (m : gmap string bytes) (acc : bytes) :
  m !! p = Some acc ->
  replay (map (EvWrite p) chunks) m !! p = Some (acc ++ concat chunks)%list.
Proof.
  revert m acc. induction chunks as [|c rest IH]; intros m acc H; simpl.
  - now rewrite app_nil_r.
  - rewrite (IH _ (acc ++ c)%list).
    + now rewrite <- app_assoc.
    + rewrite lookup_alter_eq. now rewrite H.
Qed.

Lemma writes_untouched (p q : string) (chunks : list bytes) :
  q <> p -> forallb (fun e => negb (touches p e)) (map (EvWrite q) chunks) = true.
Proof.
  intros H. induction chunks as [|c rest IH]; simpl; [reflexivity|].
  rewrite IH. now rewrite bool_decide_eq_false_2.
Qed.

(** ** Endpoint resolution *)

Lemma string_length_app (a b : string) :
  String.length (a +:+ b) = (String.length a + String.length b)%nat.
Proof.
  induction a as [|c a IH]; [reflexivity|].
  change (S (String.length (a +:+ b)) = S (String.length a + String.length b)).
  now rewrite IH.
Qed.

Lemma string_app_inj_r (a b sfx : string) : a +:+ sfx = b +:+ sfx -> a = b.
Proof.
  revert b. induction a as [|c a IH]; intros [|d b] H.
  - reflexivity.
  - apply (f_equal String.length) in H.
    rewrite !string_length_app in H. simpl in H. lia.
  - apply (f_equal String.length) in H.
    rewrite !string_length_app in H. simpl in H. lia.
  - change (String c (a +:+ sfx) = String d (b +:+ sfx)) in H.
    injection H as -> H. f_equal. now apply IH.
Qed.

Lemma get_endpoint_selected (STATUS_PUBLIC : Z) (settings : Settings) (file_obj : File) :
  get_endpoint STATUS_PUBLIC settings file_obj
  = endpoint_of (selected_server STATUS_PUBLIC settings (status file_obj)).
Proof.
  unfold get_endpoint, selected_server, endpoint_of.
  now destruct (Z.eqb (status file_obj) STATUS_PUBLIC).
Qed.

Lemma endpoint_of_nonempty (server : option string) (url : string) :
  endpoint_of server = Some url -> String.eqb url "" = false.
Proof.
  destruct server as [s|]; simpl; [|discriminate].
  destruct (String.eqb s "") eqn:E; [discriminate|].
  intros [= <-]. destruct s; [discriminate|reflexivity].
Qed.

(** C7.  The endpoint is a function of the file's status alone (two files
    of equal status resolve alike); a public file resolves on
    [SIGNING_SERVER], any other on [PRELIMINARY_SIGNING_SERVER]; a resolved
    URL is the selected server followed by [/1.0/sign_addon]; and a file
    that is not public never gets the URL of a default server that differs
    from the preliminary one. *)
Theorem get_endpoint_by_status (STATUS_PUBLIC : Z) (settings : Settings) (file_obj : File) :
  (forall other : File,
     status other = status file_obj ->
     get_endpoint STATUS_PUBLIC settings other
     = get_endpoint STATUS_PUBLIC settings file_obj)
  /\ (status file_obj = STATUS_PUBLIC ->
      get_endpoint STATUS_PUBLIC settings file_obj
      = endpoint_of (SIGNING_SERVER settings))
  /\ (status file_obj <> STATUS_PUBLIC ->
      get_endpoint STATUS_PUBLIC settings file_obj
      = endpoint_of (PRELIMINARY_SIGNING_SERVER settings))
  /\ (forall url : string,
        get_endpoint STATUS_PUBLIC settings file_obj = Some url ->
        exists server,
          selected_server STATUS_PUBLIC settings (status file_obj) = Some server
          /\ url = server +:+ "/1.0/sign_addon")
  /\ (status file_obj <> STATUS_PUBLIC ->
      forall default : string,
        SIGNING_SERVER settings = Some default ->
        PRELIMINARY_SIGNING_SERVER settings <> Some default ->
        get_endpoint STATUS_PUBLIC settings file_obj
        <> Some (default +:+ "/1.0/sign_addon")).
Proof.
  repeat split.
  - intros other H. rewrite !get_endpoint_selected. now rewrite H.
  - intros H. rewrite get_endpoint_selected. unfold selected_server.
    now rewrite (proj2 (Z.eqb_eq _ _) H).
  - intros H. rewrite get_endpoint_selected. unfold selected_server.
    now rewrite (proj2 (Z.eqb_neq _ _) H).
  - intros url. rewrite get_endpoint_selected.
    destruct (selected_server STATUS_PUBLIC settings (status file_obj)) as [s|];
      simpl; [|discriminate].
    destruct (String.eqb s ""); [discriminate|].
    intros [= <-]. now exists s.
  - intros Hst default Hd Hp. rewrite get_endpoint_selected. unfold selected_server.
    rewrite (proj2 (Z.eqb_neq _ _) Hst).
    destruct (PRELIMINARY_SIGNING_SERVER settings) as [s|]; simpl; [|discriminate].
    destruct (String.eqb s ""); [discriminate|].
    intros [= E]. apply string_app_inj_r in E. congruence.
Qed.

Example get_endpoint_public :
  get_endpoint Fixture.STATUS_PUBLIC Fixture.settings Fixture.public_file
  = Some "https://signing.example/1.0/sign_addon".
Proof. reflexivity. Qed.

Example get_endpoint_unreviewed :
  get_endpoint Fixture.STATUS_PUBLIC Fixture.settings Fixture.unreviewed_file
  = Some "https://prelim.example/1.0/sign_addon".
Proof. reflexivity. Qed.

(** C10.  For a public file the endpoint does not depend on
    [PRELIMINARY_SIGNING_SERVER], for any other file it does not depend on
    [SIGNING_SERVER]; so a public file has no endpoint when the default
    server is unset or empty, whatever the preliminary server is, and the
    other way round. *)
Theorem get_endpoint_ignores_other_server
    (STATUS_PUBLIC : Z) (file_obj : File)
    (default preliminary other : option string) (timeout timeout' : Z) :
  (status file_obj = STATUS_PUBLIC ->
   get_endpoint STATUS_PUBLIC
     {| SIGNING_SERVER := default; PRELIMINARY_SIGNING_SERVER := preliminary;
        SIGNING_SERVER_TIMEOUT := timeout |} file_obj
   = get_endpoint STATUS_PUBLIC
       {| SIGNING_SERVER := default; PRELIMINARY_SIGNING_SERVER := other;
          SIGNING_SERVER_TIMEOUT := timeout' |} file_obj)
  /\ (status file_obj <> STATUS_PUBLIC ->
      get_endpoint STATUS_PUBLIC
        {| SIGNING_SERVER := default; PRELIMINARY_SIGNING_SERVER := preliminary;
           SIGNING_SERVER_TIMEOUT := timeout |} file_obj
      = get_endpoint STATUS_PUBLIC
          {| SIGNING_SERVER := other; PRELIMINARY_SIGNING_SERVER := preliminary;
             SIGNING_SERVER_TIMEOUT := timeout' |} file_obj)
  /\ (status file_obj = STATUS_PUBLIC ->
      default = None \/ default = Some "" ->
      get_endpoint STATUS_PUBLIC
        {| SIGNING_SERVER := default; PRELIMINARY_SIGNING_SERVER := preliminary;
           SIGNING_SERVER_TIMEOUT := timeout |} file_obj = None)
  /\ (status file_obj <> STATUS_PUBLIC ->
      preliminary = None \/ preliminary = Some "" ->
      get_endpoint STATUS_PUBLIC
        {| SIGNING_SERVER := default; PRELIMINARY_SIGNING_SERVER := preliminary;
           SIGNING_SERVER_TIMEOUT := timeout |} file_obj = None).
Proof.
  unfold get_endpoint; simpl. repeat split.
  - intros H. now rewrite (proj2 (Z.eqb_eq _ _) H).
  - intros H. now rewrite (proj2 (Z.eqb_neq _ _) H).
  - intros H [-> | ->]; now rewrite (proj2 (Z.eqb_eq _ _) H).
  - intros H [-> | ->]; now rewrite (proj2 (Z.eqb_neq _ _) H).
Qed.

Example public_file_disabled_despite_preliminary :
  get_endpoint Fixture.STATUS_PUBLIC
    {| SIGNING_SERVER := None;
       PRELIMINARY_SIGNING_SERVER := Some "https://prelim.example";
       SIGNING_SERVER_TIMEOUT := 10 |} Fixture.public_file = None.
Proof. reflexivity. Qed.

(** ** Running the monad *)

Lemma bind_ok {A B} (m : M A) (k : A -> M B) (w w' : World) (a : A) :
  m w = (Ok a, w') -> bind m k w = k a w'.
Proof. intros H. unfold bind. now rewrite H. Qed.

Lemma bind_raise {A B} (m : M A) (k : A -> M B) (w w' : World) (e : exn) :
  m w = (Raise e, w') -> bind m k w = (Raise e, w').
Proof. intros H. unfold bind. now rewrite H. Qed.

Lemma try_ok {A} (m : M A) (h : exn -> M A) (w w' : World) (a : A) :
  m w = (Ok a, w') -> try_except m h w = (Ok a, w').
Proof. intros H. unfold try_except. now rewrite H. Qed.

Lemma try_raise {A} (m : M A) (h : exn -> M A) (w w' : World) (e : exn) :
  m w = (Raise e, w') -> try_except m h w = h e w'.
Proof. intros H. unfold try_except. now rewrite H. Qed.

Lemma no_fs_effect_untouched (p : string) (evs : list event) :
  forallb no_fs_effect evs = true ->
  forallb (fun e => negb (touches p e)) evs = true.
Proof.
  induction evs as [|e evs IH]; simpl; [reflexivity|].
  intros H. apply andb_true_iff in H as [He Hr]. rewrite IH by assumption.
  now destruct e.
Qed.

Lemma replay_no_fs_effect (evs : list event) (m : gmap string bytes) :
  forallb no_fs_effect evs = true -> replay evs m = m.
Proof.
  revert m. induction evs as [|e evs IH]; intros m H; simpl in *; [reflexivity|].
  apply andb_true_iff in H as [He Hr]. rewrite IH by assumption.
  now destruct e.
Qed.

(** ** The blocks of [call_signing] and [sign_file] *)

Section Blocks.

Context (STATUS_PUBLIC : Z) (settings : Settings) (X : Externals).

Lemma get_endpoint_nonempty (file_obj : File) (endpoint : string) :
  get_endpoint STATUS_PUBLIC settings file_obj = Some endpoint ->
  String.eqb endpoint "" = false.
Proof.
  rewrite get_endpoint_selected. apply endpoint_of_nonempty.
Qed.

Lemma NamedTemporaryFile_run (w : World) :
  NamedTemporaryFile X w
  = (Ok (mktemp X (fs w)),
     push_all [EvCreate (mktemp X (fs w)); EvUnlink (mktemp X (fs w))] w).
Proof. reflexivity. Qed.

Lemma fs_after_tempfile (w : World) :
  fs (push_all [EvCreate (mktemp X (fs w)); EvUnlink (mktemp X (fs w))] w) = fs w.
Proof. rewrite fs_push_all. apply create_unlink_fresh, mktemp_fresh. Qed.

Lemma JarExtractor_ok (p out : string) (w : World) (b : bytes) (sigs : string) :
  fs w !! p = Some b -> jar_signatures X b = Some sigs ->
  JarExtractor X p out w
  = (Ok {| jar_in := b; jar_out := out; signatures := sigs |},
     push_all [EvRead p] w).
Proof.
  intros Hb Hs. unfold JarExtractor, storage_open, bind, get_fs.
  rewrite Hb. simpl. unfold emit, ret. now rewrite Hs.
Qed.

Lemma JarExtractor_fails (p out : string) (w : World) :
  extraction_fails X (fs w) p ->
  exists e evs,
    JarExtractor X p out w = (Raise e, push_all evs w)
    /\ forallb no_fs_effect evs = true
    /\ forallb no_db_effect evs = true
    /\ forallb (fun e => negb (is_post e)) evs = true.
Proof.
  unfold extraction_fails, JarExtractor, storage_open, bind, get_fs.
  destruct (fs w !! p) as [b|]; simpl.
  - intros ->. now exists (OtherException "BadZipfile"), [EvRead p].
  - intros _. now exists (OtherException "IOError"), [].
Qed.

Lemma make_signed_run (jar : Jar) (pkcs7 : bytes) (w : World) :
  make_signed X jar pkcs7 w
  = ((if snd (jar_make_signed X (jar_in jar) pkcs7) then Ok tt
      else Raise (OtherException "make_signed")),
     push_all (EvCreate (jar_out jar)
               :: map (EvWrite (jar_out jar))
                    (fst (jar_make_signed X (jar_in jar) pkcs7))) w).
Proof.
  unfold make_signed.
  destruct (jar_make_signed X (jar_in jar) pkcs7) as [chunks fin].
  simpl. unfold bind at 1. unfold emit at 1. unfold bind.
  rewrite write_all_run. now destruct fin.
Qed.

Lemma post_signature_response (endpoint : string) (timeout : Z)
    (addon_id : string) (jar : Jar) (w : World) (r : Response) :
  let req := {| req_endpoint := endpoint; req_timeout := timeout;
                req_addon_id := addon_id;
                req_file := ("zigbert.sf", signatures jar) |} in
  requests_post X req = PostResponse r ->
  post_signature X endpoint timeout addon_id jar w
  = if negb (Z.eqb (status_code r) 200)
    then (Raise (SigningError ("Posting to add-on signing failed " +:+ reason r)),
          push_all [EvPost req; EvTiming "services.sign.addon";
                    EvLog ERROR ("Posting to add-on signing failed " +:+ reason r)] w)
    else (Ok r, push_all [EvPost req; EvTiming "services.sign.addon"] w).
Proof.
  intros req H.
  unfold post_signature, with_timer, requests_post_call, bind, emit, ret.
  fold req. rewrite H.
  now destruct (negb (Z.eqb (status_code r) 200)).
Qed.

(** [call_signing] up to the point where the archive has been read. *)
Lemma call_signing_extracted (file_obj : File) (w : World)
    (endpoint : string) (orig : bytes) (sigs : string) :
  get_endpoint STATUS_PUBLIC settings file_obj = Some endpoint ->
  fs w !! file_path file_obj = Some orig ->
  jar_signatures X orig = Some sigs ->
  let tmp := mktemp X (fs w) in
  let jar := {| jar_in := orig; jar_out := tmp; signatures := sigs |} in
  call_signing STATUS_PUBLIC settings X file_obj w
  = bind (post_signature X endpoint (SIGNING_SERVER_TIMEOUT settings)
            (addon_slug file_obj +:+ "-" +:+ version_string file_obj) jar)
         (apply_signature X file_obj tmp jar)
         (push_all [EvCreate tmp; EvUnlink tmp; EvRead (file_path file_obj);
                    EvLog INFO ("File signature contents: " +:+ sigs);
                    EvLog INFO ("Calling signing service: " +:+ endpoint)] w).
Proof.
  intros He Hf Hs tmp jar. unfold call_signing.
  rewrite He, (get_endpoint_nonempty _ _ He).
  rewrite (bind_ok _ _ _ _ _ (NamedTemporaryFile_run w)). fold tmp.
  assert (Hj : JarExtractor X (file_path file_obj) tmp (push_all [EvCreate tmp; EvUnlink tmp] w)
               = (Ok jar, push_all [EvRead (file_path file_obj)]
                            (push_all [EvCreate tmp; EvUnlink tmp] w))).
  { apply JarExtractor_ok; [|assumption]. unfold tmp. now rewrite fs_after_tempfile. }
  rewrite (bind_ok _ _ _ _ _ (try_ok _ _ _ _ _ Hj)).
  reflexivity.
Qed.

(** [sign_file] past its gate, in terms of what [call_signing] did. *)
Lemma sign_file_eligible (file_obj : File) (w : World) :
  can_be_signed file_obj = true ->
  sign_file STATUS_PUBLIC settings X file_obj w
  = match call_signing STATUS_PUBLIC settings X file_obj w with
    | (Ok (Some serial), w') =>
        if truthy serial
        then (Ok tt, push_all [EvUpdate (pk file_obj) serial;
                               EvLog INFO ("Signing complete for file "
                                           +:+ pretty (pk file_obj) +:+ ".")] w')
        else (Ok tt, push_all [EvLog INFO ("Signing complete for file "
                                           +:+ pretty (pk file_obj) +:+ ".")] w')
    | (Ok None, w') =>
        (Ok tt, push_all [EvLog INFO ("Signing complete for file "
                                      +:+ pretty (pk file_obj) +:+ ".")] w')
    | (Raise (SigningError msg), w') =>
        (Raise (SigningError msg),
         push_all [EvLog INFO ("Signing failed for file "
                               +:+ pretty (pk file_obj) +:+ ".")] w')
    | (Raise (OtherException name), w') => (Raise (OtherException name), w')
    end.
Proof.
  intros H. unfold sign_file. rewrite H. simpl.
  unfold bind, try_except.
  destruct (call_signing STATUS_PUBLIC settings X file_obj w) as [[[serial|]|[msg|name]] w'];
    try reflexivity.
  now destruct (truthy serial).
Qed.

End Blocks.

(** ** Signing one file: the outcomes that change nothing *)

(** C8.  With no endpoint configured for the file, [call_signing] logs one
    warning and returns [None]; [sign_file], past its gate, returns
    normally; no request is posted, every file keeps its bytes and the
    [cert_serial_num] column is left as it was (so a serial number that was
    unset stays unset). *)
Theorem signing_disabled_is_noop (STATUS_PUBLIC : Z) (settings : Settings)
    (X : Externals) (file_obj : File) (w : World) :
  get_endpoint STATUS_PUBLIC settings file_obj = None ->
  call_signing STATUS_PUBLIC settings X file_obj w
  = (Ok None, push_all [EvLog WARNING "Not signing: no active endpoint"] w)
  /\ (can_be_signed file_obj = true ->
      sign_file STATUS_PUBLIC settings X file_obj w
      = (Ok tt, push_all [EvLog WARNING "Not signing: no active endpoint";
                          EvLog INFO ("Signing complete for file "
                                      +:+ pretty (pk file_obj) +:+ ".")] w))
  /\ fs (snd (call_signing STATUS_PUBLIC settings X file_obj w)) = fs w
  /\ db (snd (call_signing STATUS_PUBLIC settings X file_obj w)) = db w
  /\ fs (snd (sign_file STATUS_PUBLIC settings X file_obj w)) = fs w
  /\ db (snd (sign_file STATUS_PUBLIC settings X file_obj w)) = db w.
Proof.
  intros He.
  assert (Hc : call_signing STATUS_PUBLIC settings X file_obj w
               = (Ok None, push_all [EvLog WARNING "Not signing: no active endpoint"] w)).
  { unfold call_signing. now rewrite He. }
  split; [exact Hc|].
  destruct (can_be_signed file_obj) eqn:Hs.
  - rewrite (sign_file_eligible _ _ _ _ _ Hs), Hc. now repeat split.
  - rewrite Hc. unfold sign_file. rewrite Hs. simpl.
    repeat split. discriminate.
Qed.

(** C9.  A file whose [can_be_signed()] is false is turned away by the
    first statement of [sign_file]: the result is a [SigningError], the
    only effect is one line in the log, and neither the settings nor any
    library is consulted (the right-hand side mentions none of them). *)
Theorem ineligible_rejected_at_gate (STATUS_PUBLIC : Z) (settings : Settings)
    (X : Externals) (file_obj : File) (w : World) :
  can_be_signed file_obj = false ->
  let msg := "Attempt to sign a non-xpi file " +:+ pretty (pk file_obj) +:+ "." in
  sign_file STATUS_PUBLIC settings X file_obj w
  = (Raise (SigningError msg), push_all [EvLog ERROR msg] w)
  /\ fs (snd (sign_file STATUS_PUBLIC settings X file_obj w)) = fs w
  /\ db (snd (sign_file STATUS_PUBLIC settings X file_obj w)) = db w
  /\ trace (snd (sign_file STATUS_PUBLIC settings X file_obj w))
     = (trace w ++ [EvLog ERROR msg])%list.
Proof.
  intros H msg. unfold sign_file. rewrite H. simpl. now repeat split.
Qed.

Lemma call_signing_extraction_failed (STATUS_PUBLIC : Z)
    (settings : Settings) (X : Externals) (file_obj : File) (w : World)
    (endpoint : string) :
  get_endpoint STATUS_PUBLIC settings file_obj = Some endpoint ->
  extraction_fails X (fs w) (file_path file_obj) ->
  exists evs,
    call_signing STATUS_PUBLIC settings X file_obj w
    = (Raise (SigningError "Archive extraction failed. Bad archive?"), push_all evs w)
    /\ forallb (fun e => negb (is_post e)) evs = true
    /\ forallb (fun e => negb (touches (file_path file_obj) e)) (skipn 2 evs) = true
    /\ firstn 2 evs = [EvCreate (mktemp X (fs w)); EvUnlink (mktemp X (fs w))]
    /\ forallb no_db_effect evs = true
    /\ fs (push_all evs w) = fs w.
Proof.
  intros He Hx.
  set (tmp := mktemp X (fs w)).
  assert (Hx' : extraction_fails X (fs (push_all [EvCreate tmp; EvUnlink tmp] w))
                  (file_path file_obj)).
  { unfold tmp. now rewrite fs_after_tempfile. }
  destruct (JarExtractor_fails X (file_path file_obj) tmp _ Hx')
    as (e & evs & Hj & Hfs & Hdb & Hpost).
  exists ([EvCreate tmp; EvUnlink tmp] ++ evs
          ++ [EvLog ERROR "Archive extraction failed. Bad archive?"])%list.
  repeat split.
  - unfold call_signing. rewrite He, (get_endpoint_nonempty _ _ _ _ He).
    rewrite (bind_ok _ _ _ _ _ (NamedTemporaryFile_run X w)). fold tmp.
    rewrite (bind_raise _ _ _
               (push_all (evs ++ [EvLog ERROR "Archive extraction failed. Bad archive?"])
                  (push_all [EvCreate tmp; EvUnlink tmp] w))
               (SigningError "Archive extraction failed. Bad archive?")).
    + now rewrite <- push_all_app.
    + rewrite (try_raise _ _ _ _ _ Hj). now rewrite push_all_app.
  - rewrite !forallb_app, Hpost. reflexivity.
  - apply no_fs_effect_untouched.
    change (forallb no_fs_effect
              (evs ++ [EvLog ERROR "Archive extraction failed. Bad archive?"]) = true).
    rewrite forallb_app, Hfs. reflexivity.
  - rewrite !forallb_app, Hdb. reflexivity.
  - rewrite push_all_app, (fs_push_all (evs ++ _)). unfold tmp.
    rewrite fs_after_tempfile.
    apply replay_no_fs_effect. rewrite forallb_app, Hfs. reflexivity.
Qed.

(** C4.  When an endpoint is configured and the archive cannot be
    extracted, [call_signing] raises
    [SigningError("Archive extraction failed. Bad archive?")]; nothing was
    posted, and the file system and the serial numbers are what they
    were.  [sign_file], past its gate, raises the same error with the same
    guarantees. *)
Theorem extraction_failure_precedes_network (STATUS_PUBLIC : Z)
    (settings : Settings) (X : Externals) (file_obj : File) (w : World)
    (endpoint : string) :
  get_endpoint STATUS_PUBLIC settings file_obj = Some endpoint ->
  extraction_fails X (fs w) (file_path file_obj) ->
  let failure := SigningError "Archive extraction failed. Bad archive?" in
  (exists evs,
     call_signing STATUS_PUBLIC settings X file_obj w = (Raise failure, push_all evs w)
     /\ forallb (fun e => negb (is_post e)) evs = true
     /\ fs (push_all evs w) = fs w
     /\ db (push_all evs w) = db w)
  /\ (can_be_signed file_obj = true ->
      exists evs,
        sign_file STATUS_PUBLIC settings X file_obj w = (Raise failure, push_all evs w)
        /\ forallb (fun e => negb (is_post e)) evs = true
        /\ fs (push_all evs w) = fs w
        /\ db (push_all evs w) = db w).
Proof.
  intros He Hx failure.
  destruct (call_signing_extraction_failed _ _ _ _ _ _ He Hx)
    as (evs & Hc & Hpost & _ & _ & Hdb & Hfs).
  split.
  - exists evs. repeat split; try assumption. now apply db_push_all_quiet.
  - intros Hs. rewrite (sign_file_eligible _ _ _ _ _ Hs), Hc.
    eexists. split; [now rewrite <- push_all_app|].
    rewrite push_all_app. repeat split.
    + rewrite forallb_app, Hpost. reflexivity.
    + simpl. exact Hfs.
    + simpl. now apply db_push_all_quiet.
Qed.

(** ** Signing one file: the service answers *)

Lemma replay_until_post (settings : Settings) (file_obj : File)
    (tmp endpoint sigs : string) (m : gmap string bytes) :
  m !! tmp = None ->
  replay (events_until_post settings file_obj tmp endpoint sigs) m = m.
Proof. intros H. simpl. now rewrite delete_insert_id. Qed.

Lemma db_until_post (settings : Settings) (file_obj : File)
    (tmp endpoint sigs : string) :
  forallb no_db_effect (events_until_post settings file_obj tmp endpoint sigs) = true.
Proof. reflexivity. Qed.

Lemma replay_embed (tmp : string) (chunks : list bytes) (m : gmap string bytes) :
  replay (EvCreate tmp :: map (EvWrite tmp) chunks) m !! tmp = Some (concat chunks).
Proof.
  simpl. rewrite (replay_writes tmp chunks _ []); [reflexivity|].
  apply lookup_insert_eq.
Qed.

Lemma fs_apply_rename (tmp p : string) (m : gmap string bytes) (c : bytes) :
  m !! tmp = Some c -> fs_apply (EvRename tmp p) m !! p = Some c.
Proof. intros H. simpl. rewrite H. apply lookup_insert_eq. Qed.

Lemma os_rename_run (X : Externals) (src dst : string) (w : World) (b : bytes) :
  fs w !! src = Some b ->
  os_rename X src dst w
  = if rename_permitted X src dst then (Ok tt, push_all [EvRename src dst] w)
    else (Raise (OtherException "OSError"), w).
Proof.
  intros H. unfold os_rename, bind, get_fs. rewrite H.
  now destruct (rename_permitted X src dst).
Qed.

(** [call_signing] when the service answers with a status other than 200. *)
Lemma call_signing_rejected (STATUS_PUBLIC : Z) (settings : Settings)
    (X : Externals) (file_obj : File) (w : World)
    (endpoint : string) (orig : bytes) (sigs : string) (resp : Response) :
  get_endpoint STATUS_PUBLIC settings file_obj = Some endpoint ->
  fs w !! file_path file_obj = Some orig ->
  jar_signatures X orig = Some sigs ->
  requests_post X (signing_request settings file_obj endpoint sigs) = PostResponse resp ->
  Z.eqb (status_code resp) 200 = false ->
  call_signing STATUS_PUBLIC settings X file_obj w
  = (Raise (SigningError ("Posting to add-on signing failed " +:+ reason resp)),
     push_all (events_until_post settings file_obj (mktemp X (fs w)) endpoint sigs
               ++ [EvLog ERROR ("Posting to add-on signing failed " +:+ reason resp)]) w).
Proof.
  intros He Hf Hs Hp Hcode.
  rewrite (call_signing_extracted _ _ _ _ _ _ _ _ He Hf Hs).
  erewrite bind_raise; [reflexivity|].
  rewrite (post_signature_response X endpoint (SIGNING_SERVER_TIMEOUT settings)
             (addon_slug file_obj +:+ "-" +:+ version_string file_obj)
             {| jar_in := orig; jar_out := mktemp X (fs w); signatures := sigs |}
             _ resp Hp), Hcode.
  simpl negb. cbv iota.
  now rewrite <- push_all_app.
Qed.

(** C5.  When the request is answered with a status outside 200-299,
    [call_signing] raises a [SigningError] whose message ends with the
    response's reason phrase; no serial number comes back, every file and
    every stored serial number is as before, and [sign_file] passes the
    same error on. *)
Theorem non_2xx_raises_with_reason (STATUS_PUBLIC : Z) (settings : Settings)
    (X : Externals) (file_obj : File) (w : World)
    (endpoint : string) (orig : bytes) (sigs : string) (resp : Response) :
  get_endpoint STATUS_PUBLIC settings file_obj = Some endpoint ->
  fs w !! file_path file_obj = Some orig ->
  jar_signatures X orig = Some sigs ->
  requests_post X (signing_request settings file_obj endpoint sigs) = PostResponse resp ->
  ~ (200 <= status_code resp < 300) ->
  let failure := SigningError ("Posting to add-on signing failed " +:+ reason resp) in
  let evs := (events_until_post settings file_obj (mktemp X (fs w)) endpoint sigs
              ++ [EvLog ERROR ("Posting to add-on signing failed " +:+ reason resp)])%list in
  call_signing STATUS_PUBLIC settings X file_obj w = (Raise failure, push_all evs w)
  /\ fs (push_all evs w) = fs w
  /\ db (push_all evs w) = db w
  /\ (can_be_signed file_obj = true ->
      sign_file STATUS_PUBLIC settings X file_obj w
      = (Raise failure,
         push_all (evs ++ [EvLog INFO ("Signing failed for file "
                                       +:+ pretty (pk file_obj) +:+ ".")]) w))
  /\ fs (snd (sign_file STATUS_PUBLIC settings X file_obj w)) = fs w
  /\ db (snd (sign_file STATUS_PUBLIC settings X file_obj w)) = db w.
Proof.
  intros He Hf Hs Hp Hcode failure evs.
  assert (Hne : Z.eqb (status_code resp) 200 = false) by (apply Z.eqb_neq; lia).
  pose proof (call_signing_rejected _ _ _ _ _ _ _ _ _ He Hf Hs Hp Hne) as Hc.
  fold failure evs in Hc.
  assert (Hfs : fs (push_all evs w) = fs w).
  { rewrite fs_push_all. unfold evs. rewrite replay_app.
    rewrite replay_until_post by apply mktemp_fresh. reflexivity. }
  assert (Hdb : db (push_all evs w) = db w) by (now apply db_push_all_quiet).
  split; [exact Hc|]. split; [exact Hfs|]. split; [exact Hdb|].
  destruct (can_be_signed file_obj) eqn:Hcan.
  - rewrite (sign_file_eligible _ _ _ _ _ Hcan), Hc. unfold failure.
    rewrite <- push_all_app. split; [reflexivity|].
    rewrite push_all_app. simpl. now split.
  - split; [discriminate|]. unfold sign_file. rewrite Hcan. simpl. now split.
Qed.

(** The try block of lines 91-97 when the certificate parses. *)
Lemma embed_run (X : Externals) (jar : Jar) (pkcs7 : bytes) (serial : pyval) (w : World) :
  get_signature_serial_number X pkcs7 = Some serial ->
  try_except
    (let* n := match get_signature_serial_number X pkcs7 with
               | Some n => ret n
               | None => raise (OtherException "get_signature_serial_number")
               end in
     make_signed X jar pkcs7 >> ret n)
    (fun _ => log ERROR "Addon signing failed" >>
              raise (SigningError "Addon signing failed")) w
  = let written := (EvCreate (jar_out jar)
                    :: map (EvWrite (jar_out jar))
                         (fst (jar_make_signed X (jar_in jar) pkcs7)))%list in
    if snd (jar_make_signed X (jar_in jar) pkcs7)
    then (Ok serial, push_all written w)
    else (Raise (SigningError "Addon signing failed"),
          push_all (written ++ [EvLog ERROR "Addon signing failed"]) w).
Proof.
  intros Hn. rewrite Hn. unfold try_except, bind, ret.
  rewrite make_signed_run.
  destruct (snd (jar_make_signed X (jar_in jar) pkcs7)); [reflexivity|].
  cbv zeta. now rewrite push_all_app.
Qed.

Lemma apply_signature_success (X : Externals) (file_obj : File) (tmp : string)
    (jar : Jar) (resp : Response) (w : World)
    (pkcs7 : bytes) (serial : pyval) (chunks : list bytes) :
  jar_out jar = tmp ->
  zigbert_rsa X (content resp) = Some pkcs7 ->
  get_signature_serial_number X pkcs7 = Some serial ->
  jar_make_signed X (jar_in jar) pkcs7 = (chunks, true) ->
  rename_permitted X tmp (file_path file_obj) = true ->
  apply_signature X file_obj tmp jar resp w
  = (Ok (Some serial),
     push_all ((EvCreate tmp :: map (EvWrite tmp) chunks)
               ++ [EvRename tmp (file_path file_obj)]) w).
Proof.
  intros Hout Hz Hn Hm Hr. unfold apply_signature. rewrite Hz.
  unfold bind at 1. unfold ret at 1. unfold bind at 1.
  rewrite (embed_run X jar pkcs7 serial w Hn), Hm, Hout. simpl fst. simpl snd. cbv zeta iota.
  unfold bind.
  rewrite (os_rename_run X tmp (file_path file_obj) _ (concat chunks)), Hr.
  - now rewrite push_all_app.
  - rewrite fs_push_all. apply replay_embed.
Qed.

(** [call_signing] when every step succeeds. *)
Lemma call_signing_signed (STATUS_PUBLIC : Z) (settings : Settings)
    (X : Externals) (file_obj : File) (w : World)
    (endpoint : string) (orig : bytes) (sigs : string) (resp : Response)
    (pkcs7 : bytes) (serial : pyval) (chunks : list bytes) :
  get_endpoint STATUS_PUBLIC settings file_obj = Some endpoint ->
  fs w !! file_path file_obj = Some orig ->
  jar_signatures X orig = Some sigs ->
  requests_post X (signing_request settings file_obj endpoint sigs) = PostResponse resp ->
  status_code resp = 200 ->
  zigbert_rsa X (content resp) = Some pkcs7 ->
  get_signature_serial_number X pkcs7 = Some serial ->
  jar_make_signed X orig pkcs7 = (chunks, true) ->
  rename_permitted X (mktemp X (fs w)) (file_path file_obj) = true ->
  call_signing STATUS_PUBLIC settings X file_obj w
  = (Ok (Some serial),
     push_all (events_until_post settings file_obj (mktemp X (fs w)) endpoint sigs
               ++ (EvCreate (mktemp X (fs w)) :: map (EvWrite (mktemp X (fs w))) chunks)
               ++ [EvRename (mktemp X (fs w)) (file_path file_obj)]) w).
Proof.
  intros He Hf Hs Hp Hcode Hz Hn Hm Hr.
  rewrite (call_signing_extracted _ _ _ _ _ _ _ _ He Hf Hs).
  erewrite bind_ok.
  2: { rewrite (post_signature_response X endpoint (SIGNING_SERVER_TIMEOUT settings)
                  (addon_slug file_obj +:+ "-" +:+ version_string file_obj)
                  {| jar_in := orig; jar_out := mktemp X (fs w); signatures := sigs |}
                  _ resp Hp), Hcode.
       reflexivity. }
  rewrite (apply_signature_success X file_obj (mktemp X (fs w))
             {| jar_in := orig; jar_out := mktemp X (fs w); signatures := sigs |}
             resp _ pkcs7 serial chunks eq_refl Hz Hn Hm Hr).
  now rewrite <- !push_all_app.
Qed.

(** After a successful [call_signing] the file holds what [make_signed]
    wrote, and no serial number has been stored yet. *)
Lemma signed_world (settings : Settings) (file_obj : File) (w : World)
    (tmp endpoint sigs : string) (chunks : list bytes) :
  fs w !! tmp = None ->
  let evs := (events_until_post settings file_obj tmp endpoint sigs
              ++ (EvCreate tmp :: map (EvWrite tmp) chunks)
              ++ [EvRename tmp (file_path file_obj)])%list in
  fs (push_all evs w) !! file_path file_obj = Some (concat chunks)
  /\ db (push_all evs w) = db w.
Proof.
  intros Hfresh evs. split.
  - rewrite fs_push_all. unfold evs. rewrite !replay_app.
    rewrite replay_until_post by assumption.
    apply (fs_apply_rename tmp), replay_embed.
  - apply db_push_all_quiet. unfold evs. rewrite !forallb_app.
    rewrite db_until_post. simpl.
    rewrite andb_true_r. induction chunks as [|c rest IH]; [reflexivity|exact IH].
Qed.

(** C2, as amended.  For a signable public file whose archive extracts,
    when the default server is configured, the service answers 200 with a
    body whose [zigbert.rsa] decodes, the certificate yields a serial
    number that is truthy, [make_signed] finishes and the rename is
    permitted: [call_signing] returns that serial number, having moved the
    signed archive over the file and not yet touched the record; then
    [sign_file] stores the same serial number and returns. *)
Theorem public_file_signed_and_recorded (STATUS_PUBLIC : Z) (settings : Settings)
    (X : Externals) (file_obj : File) (w : World)
    (endpoint : string) (orig : bytes) (sigs : string) (resp : Response)
    (pkcs7 : bytes) (serial : pyval) (chunks : list bytes) :
  can_be_signed file_obj = true ->
  status file_obj = STATUS_PUBLIC ->
  endpoint_of (SIGNING_SERVER settings) = Some endpoint ->
  fs w !! file_path file_obj = Some orig ->
  jar_signatures X orig = Some sigs ->
  requests_post X (signing_request settings file_obj endpoint sigs) = PostResponse resp ->
  status_code resp = 200 ->
  zigbert_rsa X (content resp) = Some pkcs7 ->
  get_signature_serial_number X pkcs7 = Some serial ->
  truthy serial = true ->
  jar_make_signed X orig pkcs7 = (chunks, true) ->
  rename_permitted X (mktemp X (fs w)) (file_path file_obj) = true ->
  let tmp := mktemp X (fs w) in
  let replaced := (events_until_post settings file_obj tmp endpoint sigs
                   ++ (EvCreate tmp :: map (EvWrite tmp) chunks)
                   ++ [EvRename tmp (file_path file_obj)])%list in
  call_signing STATUS_PUBLIC settings X file_obj w = (Ok (Some serial), push_all replaced w)
  /\ fs (push_all replaced w) !! file_path file_obj = Some (concat chunks)
  /\ db (push_all replaced w) = db w
  /\ sign_file STATUS_PUBLIC settings X file_obj w
     = (Ok tt,
        push_all (replaced
                  ++ [EvUpdate (pk file_obj) serial;
                      EvLog INFO ("Signing complete for file "
                                  +:+ pretty (pk file_obj) +:+ ".")]) w)
  /\ fs (snd (sign_file STATUS_PUBLIC settings X file_obj w)) !! file_path file_obj
     = Some (concat chunks)
  /\ db (snd (sign_file STATUS_PUBLIC settings X file_obj w)) !! pk file_obj
     = Some serial.
Proof.
  intros Hcan Hst Hsrv Hf Hs Hp Hcode Hz Hn Ht Hm Hr tmp replaced.
  assert (He : get_endpoint STATUS_PUBLIC settings file_obj = Some endpoint).
  { rewrite get_endpoint_selected. unfold selected_server.
    now rewrite (proj2 (Z.eqb_eq _ _) Hst). }
  pose proof (call_signing_signed _ _ _ _ _ _ _ _ _ _ _ _ He Hf Hs Hp Hcode Hz Hn Hm Hr) as Hc.
  fold tmp in Hc. fold replaced in Hc.
  destruct (signed_world settings file_obj w tmp endpoint sigs chunks (mktemp_fresh X _))
    as [Hfs Hdb].
  fold replaced in Hfs, Hdb.
  split; [exact Hc|]. split; [exact Hfs|]. split; [exact Hdb|].
  rewrite (sign_file_eligible _ _ _ _ _ Hcan), Hc, Ht.
  rewrite <- push_all_app. split; [reflexivity|].
  rewrite push_all_app. simpl. split; [exact Hfs|].
  apply lookup_insert_eq.
Qed.

(** ** Signing one file: the file is replaced at one stroke *)

Lemma writes_no_db (q : string) (chunks : list bytes) :
  forallb no_db_effect (map (EvWrite q) chunks) = true.
Proof. induction chunks as [|c rest IH]; [reflexivity|exact IH]. Qed.

Lemma embed_untouched (p tmp : string) (chunks : list bytes) :
  tmp <> p ->
  forallb (fun e => negb (touches p e)) (EvCreate tmp :: map (EvWrite tmp) chunks) = true.
Proof.
  intros H. simpl. rewrite bool_decide_eq_false_2 by assumption.
  now apply writes_untouched.
Qed.

(** Every way lines 90-99 can go: an exception with the file untouched, or
    the rename as the last step, with the temporary file then holding the
    whole output of [make_signed]. *)
Lemma apply_signature_shape (X : Externals) (file_obj : File) (tmp : string)
    (jar : Jar) (resp : Response) (w : World) :
  jar_out jar = tmp -> tmp <> file_path file_obj ->
  exists pre,
    forallb (fun e => negb (touches (file_path file_obj) e)) pre = true
    /\ forallb no_db_effect pre = true
    /\ ((exists e, apply_signature X file_obj tmp jar resp w = (Raise e, push_all pre w))
        \/ (exists serial signed,
              apply_signature X file_obj tmp jar resp w
              = (Ok (Some serial), push_all (pre ++ [EvRename tmp (file_path file_obj)]) w)
              /\ fully_signed X (jar_in jar) signed
              /\ replay pre (fs w) !! tmp = Some signed)).
Proof.
  intros Hout Hne.
  destruct (zigbert_rsa X (content resp)) as [pkcs7|] eqn:Hz.
  2: { exists []. split; [reflexivity|]. split; [reflexivity|]. left.
       exists (OtherException "ValueError").
       unfold apply_signature. now rewrite Hz. }
  destruct (get_signature_serial_number X pkcs7) as [serial|] eqn:Hn.
  2: { exists [EvLog ERROR "Addon signing failed"].
       split; [reflexivity|]. split; [reflexivity|]. left.
       exists (SigningError "Addon signing failed").
       unfold apply_signature. rewrite Hz.
       unfold bind at 1. unfold ret at 1. unfold bind at 1. unfold try_except at 1.
       unfold bind at 1. rewrite Hn. reflexivity. }
  destruct (jar_make_signed X (jar_in jar) pkcs7) as [chunks fin] eqn:Hm.
  destruct fin.
  - exists (EvCreate tmp :: map (EvWrite tmp) chunks).
    split; [now apply embed_untouched|]. split; [apply writes_no_db|].
    destruct (rename_permitted X tmp (file_path file_obj)) eqn:Hr.
    + right. exists serial, (concat chunks).
      split; [now apply (apply_signature_success X file_obj tmp jar resp w pkcs7)|].
      split; [now exists pkcs7, chunks|]. apply replay_embed.
    + left. exists (OtherException "OSError").
      unfold apply_signature. rewrite Hz.
      unfold bind at 1. unfold ret at 1. unfold bind at 1.
      rewrite (embed_run X jar pkcs7 serial w Hn), Hm, Hout.
      simpl fst. simpl snd. cbv zeta iota. unfold bind.
      rewrite (os_rename_run X tmp (file_path file_obj) _ (concat chunks)), Hr;
        [reflexivity|].
      rewrite fs_push_all. apply replay_embed.
  - exists ((EvCreate tmp :: map (EvWrite tmp) chunks)
            ++ [EvLog ERROR "Addon signing failed"])%list.
    split; [rewrite forallb_app, embed_untouched by assumption; reflexivity|].
    split; [rewrite forallb_app; simpl; now rewrite writes_no_db|].
    left. exists (SigningError "Addon signing failed").
    unfold apply_signature. rewrite Hz.
    unfold bind at 1. unfold ret at 1. unfold bind at 1.
    rewrite (embed_run X jar pkcs7 serial w Hn), Hm, Hout. reflexivity.
Qed.

(** Every way [post_signature] can go. *)
Lemma post_signature_cases (X : Externals) (endpoint : string) (timeout : Z)
    (addon_id : string) (jar : Jar) (w : World) :
  exists r evs,
    post_signature X endpoint timeout addon_id jar w = (r, push_all evs w)
    /\ forallb no_fs_effect evs = true
    /\ forallb no_db_effect evs = true.
Proof.
  unfold post_signature, with_timer, requests_post_call, bind, emit, ret.
  set (req := {| req_endpoint := endpoint; req_timeout := timeout;
                 req_addon_id := addon_id;
                 req_file := ("zigbert.sf", signatures jar) |}).
  destruct (requests_post X req) as [r | [st|] err | ].
  - destruct (negb (Z.eqb (status_code r) 200)).
    + now exists (Raise (SigningError ("Posting to add-on signing failed " +:+ reason r))),
                 [EvPost req; EvTiming "services.sign.addon";
                  EvLog ERROR ("Posting to add-on signing failed " +:+ reason r)].
    + now exists (Ok r), [EvPost req; EvTiming "services.sign.addon"].
  - now exists (Raise (SigningError ("Posting to add-on signing failed: "
                                     +:+ st +:+ ", " +:+ err))),
               [EvPost req; EvTiming "services.sign.addon";
                EvLog ERROR ("Posting to add-on signing failed: " +:+ st +:+ ", " +:+ err)].
  - now exists (Raise (OtherException "AttributeError")),
               [EvPost req; EvTiming "services.sign.addon"].
  - now exists (Raise (SigningError "Posting to add-on signing failed")),
               [EvPost req; EvTiming "services.sign.addon";
                EvLog ERROR "Posting to add-on signing failed"].
Qed.

Lemma forallb_lookup {A} (f : A -> bool) (l : list A) (i : nat) (x : A) :
  forallb f l = true -> l !! i = Some x -> f x = true.
Proof.
  revert i. induction l as [|y l IH]; intros [|i] H Hl; simpl in *; try discriminate.
  - apply andb_true_iff in H as [Hy _]. congruence.
  - apply andb_true_iff in H as [_ Hr]. now apply (IH i).
Qed.

Lemma replaces_once_atomic {A} (X : Externals) (p tmp : string) (orig : bytes)
    (w : World) (run : result A * World) :
  fs w !! p = Some orig ->
  replaces_once X p tmp orig w run ->
  atomic_replacement X p tmp orig w run.
Proof.
  intros Horig (pre & mid & tail & Hrun & Hpre & Htail & Hmid).
  pose proof (no_fs_effect_untouched p tail Htail) as Htail'.
  exists (pre ++ mid ++ tail)%list. split; [exact Hrun|].
  destruct Hmid as [-> | (-> & Hok & signed & Hsigned & Htmp)].
  - assert (Hall : forallb (fun e => negb (touches p e)) (pre ++ [] ++ tail) = true).
    { rewrite !forallb_app, Hpre, Htail'. reflexivity. }
    split; [|split].
    + intros k. left. rewrite replay_untouched; [assumption|].
      now apply forallb_take.
    + intros i e Hi Ht. pose proof (forallb_lookup _ _ _ _ Hall Hi) as Hn.
      simpl in Hn. rewrite Ht in Hn. discriminate.
    + intros e _. split; [exact Hall|].
      rewrite Hrun, fs_push_all. now rewrite replay_untouched.
  - assert (Hwhere : forall (i : nat) (e : event),
              (pre ++ [EvRename tmp p] ++ tail)%list !! i = Some e ->
              touches p e = true -> i = length pre /\ e = EvRename tmp p).
    { intros i e Hi Ht.
      apply lookup_app_Some in Hi as [Hi | [Hge Hi]].
      - pose proof (forallb_lookup _ _ _ _ Hpre Hi) as Hn. simpl in Hn.
        rewrite Ht in Hn. discriminate.
      - destruct (i - length pre)%nat as [|n] eqn:Hd; simpl in Hi.
        + injection Hi as <-. split; [lia|reflexivity].
        + pose proof (forallb_lookup _ _ _ _ Htail' Hi) as Hn. simpl in Hn.
          rewrite Ht in Hn. discriminate. }
    split; [|split].
    + intros k. destruct (le_lt_dec k (length pre)) as [Hle | Hgt].
      * left. rewrite take_app_le by assumption.
        rewrite replay_untouched; [assumption|]. now apply forallb_take.
      * right. exists signed. split; [assumption|].
        rewrite take_app_ge by lia.
        destruct (k - length pre)%nat as [|n] eqn:Hd; [lia|].
        simpl take. rewrite replay_app. simpl.
        change (replay (take n tail) (fs_apply (EvRename tmp p) (replay pre (fs w))) !! p
                = Some signed).
        rewrite replay_untouched by (now apply forallb_take).
        now apply fs_apply_rename.
    + intros i e Hi Ht. destruct (Hwhere i e Hi Ht) as [-> ->].
      split; [reflexivity|].
      intros j e' Hj Ht'. now destruct (Hwhere j e' Hj Ht') as [-> _].
    + intros e He. now destruct (Hok e).
Qed.

Lemma fresh_differs (X : Externals) (m : gmap string bytes) (p : string) (b : bytes) :
  m !! p = Some b -> mktemp X m <> p.
Proof. intros H E. rewrite <- E, mktemp_fresh in H. discriminate. Qed.

(** Every way [call_signing] can go on a file that exists. *)
Lemma call_signing_shape (STATUS_PUBLIC : Z) (settings : Settings)
    (X : Externals) (file_obj : File) (w : World) (orig : bytes) :
  fs w !! file_path file_obj = Some orig ->
  exists pre,
    forallb (fun e => negb (touches (file_path file_obj) e)) pre = true
    /\ forallb no_db_effect pre = true
    /\ ((exists r, call_signing STATUS_PUBLIC settings X file_obj w = (r, push_all pre w)
                   /\ forall serial, r <> Ok (Some serial))
        \/ (exists serial signed,
              call_signing STATUS_PUBLIC settings X file_obj w
              = (Ok (Some serial),
                 push_all (pre ++ [EvRename (mktemp X (fs w)) (file_path file_obj)]) w)
              /\ fully_signed X orig signed
              /\ replay pre (fs w) !! mktemp X (fs w) = Some signed)).
Proof.
  intros Horig.
  set (tmp := mktemp X (fs w)).
  assert (Hne : tmp <> file_path file_obj)
    by (apply (fresh_differs X _ _ orig); assumption).
  destruct (get_endpoint STATUS_PUBLIC settings file_obj) as [endpoint|] eqn:He.
  2: { exists [EvLog WARNING "Not signing: no active endpoint"].
       split; [reflexivity|]. split; [reflexivity|]. left. exists (Ok None).
       split; [|discriminate]. unfold call_signing. now rewrite He. }
  destruct (jar_signatures X orig) as [sigs|] eqn:Hs.
  2: { assert (Hx : extraction_fails X (fs w) (file_path file_obj)).
       { unfold extraction_fails. now rewrite Horig. }
       destruct (call_signing_extraction_failed _ _ _ _ _ _ He Hx)
         as (evs & Hc & _ & Hrest & Hfirst & Hdb & _).
       exists evs. split; [|split; [exact Hdb|]].
       - rewrite <- (take_drop 2 evs), forallb_app.
         change (firstn 2 evs) with (take 2 evs) in Hfirst.
         change (skipn 2 evs) with (drop 2 evs) in Hrest.
         fold tmp in Hfirst. rewrite Hfirst, Hrest. simpl.
         now rewrite bool_decide_eq_false_2.
       - left. eexists. split; [exact Hc|discriminate]. }
  rewrite (call_signing_extracted _ _ _ _ _ _ _ _ He Horig Hs). fold tmp.
  set (jar := {| jar_in := orig; jar_out := tmp; signatures := sigs |}).
  set (pre0 := [EvCreate tmp; EvUnlink tmp; EvRead (file_path file_obj);
                EvLog INFO ("File signature contents: " +:+ sigs);
                EvLog INFO ("Calling signing service: " +:+ endpoint)]).
  assert (Hpre0 : forallb (fun e => negb (touches (file_path file_obj) e)) pre0 = true).
  { simpl. now rewrite bool_decide_eq_false_2. }
  destruct (post_signature_cases X endpoint (SIGNING_SERVER_TIMEOUT settings)
              (addon_slug file_obj +:+ "-" +:+ version_string file_obj) jar
              (push_all pre0 w)) as (r & evs & Hp & Hfs & Hdb).
  pose proof (no_fs_effect_untouched (file_path file_obj) evs Hfs) as Hevs.
  destruct r as [resp | e].
  2: { rewrite (bind_raise _ _ _ _ _ Hp).
       exists (pre0 ++ evs)%list.
       split; [now rewrite forallb_app, Hpre0, Hevs|].
       split; [now rewrite forallb_app, Hdb|].
       left. eexists. split; [now rewrite push_all_app|discriminate]. }
  rewrite (bind_ok _ _ _ _ _ Hp).
  destruct (apply_signature_shape X file_obj tmp jar resp (push_all evs (push_all pre0 w))
              eq_refl Hne)
    as (pre1 & Hpre1 & Hdb1 & [[e Ha] | (serial & signed & Ha & Hsigned & Htmp)]);
    rewrite Ha; exists (pre0 ++ evs ++ pre1)%list;
    (split; [now rewrite !forallb_app, Hpre0, Hevs, Hpre1|]);
    (split; [now rewrite !forallb_app, Hdb, Hdb1|]).
  - left. eexists. split; [now rewrite !push_all_app|discriminate].
  - right. exists serial, signed.
    split; [now rewrite !push_all_app|].
    split; [exact Hsigned|].
    rewrite !fs_push_all in Htmp. now rewrite !replay_app.
Qed.

Lemma call_signing_replaces_once (STATUS_PUBLIC : Z) (settings : Settings)
    (X : Externals) (file_obj : File) (w : World) (orig : bytes) :
  fs w !! file_path file_obj = Some orig ->
  replaces_once X (file_path file_obj) (mktemp X (fs w)) orig w
    (call_signing STATUS_PUBLIC settings X file_obj w).
Proof.
  intros Horig.
  destruct (call_signing_shape STATUS_PUBLIC settings X file_obj w orig Horig)
    as (pre & Hpre & _ & [(r & Hc & Hr) | (serial & signed & Hc & Hsigned & Htmp)]);
    rewrite Hc.
  - exists pre, [], []. rewrite !app_nil_r.
    split; [reflexivity|]. split; [exact Hpre|]. split; [reflexivity|]. now left.
  - exists pre, [EvRename (mktemp X (fs w)) (file_path file_obj)], [].
    rewrite !app_nil_r.
    split; [reflexivity|]. split; [exact Hpre|]. split; [reflexivity|]. right.
    split; [reflexivity|]. split; [discriminate|]. now exists signed.
Qed.

(** Every way [sign_file] can go on a file that exists; the record is
    written, if at all, after the rename. *)
Lemma sign_file_shape (STATUS_PUBLIC : Z) (settings : Settings)
    (X : Externals) (file_obj : File) (w : World) (orig : bytes) :
  fs w !! file_path file_obj = Some orig ->
  exists pre mid tail : list event,
    snd (sign_file STATUS_PUBLIC settings X file_obj w) = push_all (pre ++ mid ++ tail) w
    /\ forallb (fun e => negb (touches (file_path file_obj) e)) pre = true
    /\ forallb no_db_effect pre = true
    /\ forallb no_fs_effect tail = true
    /\ ((mid = [] /\ forallb no_db_effect tail = true)
        \/ (mid = [EvRename (mktemp X (fs w)) (file_path file_obj)]
            /\ (forall e : exn,
                  fst (sign_file STATUS_PUBLIC settings X file_obj w) <> Raise e)
            /\ exists signed, fully_signed X orig signed
                              /\ replay pre (fs w) !! mktemp X (fs w) = Some signed)).
Proof.
  intros Horig.
  destruct (can_be_signed file_obj) eqn:Hcan.
  2: { unfold sign_file. rewrite Hcan. simpl.
       eexists [EvLog ERROR _], [], []. now repeat split; try left. }
  rewrite (sign_file_eligible _ _ _ _ _ Hcan).
  destruct (call_signing_shape STATUS_PUBLIC settings X file_obj w orig Horig)
    as (pre & Hpre & Hdb & [(r & Hc & Hr) | (serial & signed & Hc & Hsigned & Htmp)]);
    rewrite Hc.
  - destruct r as [[serial|] | [msg|name]].
    + now destruct (Hr serial).
    + eexists pre, [], [EvLog INFO _]. cbn [snd app].
      split; [now rewrite push_all_app|]. now repeat split; try left.
    + eexists pre, [], [EvLog INFO _]. cbn [snd app].
      split; [now rewrite push_all_app|]. now repeat split; try left.
    + exists pre, [], []. cbn [snd app]. rewrite app_nil_r.
      now repeat split; try left.
  - destruct (truthy serial).
    + eexists pre, [EvRename _ _], [EvUpdate _ _; EvLog INFO _]. cbn [snd].
      split; [now rewrite !push_all_app|].
      split; [exact Hpre|]. split; [exact Hdb|]. split; [reflexivity|]. right.
      split; [reflexivity|]. split; [discriminate|]. now exists signed.
    + eexists pre, [EvRename _ _], [EvLog INFO _]. cbn [snd].
      split; [now rewrite !push_all_app|].
      split; [exact Hpre|]. split; [exact Hdb|]. split; [reflexivity|]. right.
      split; [reflexivity|]. split; [discriminate|]. now exists signed.
Qed.

Lemma sign_file_replaces_once (STATUS_PUBLIC : Z) (settings : Settings)
    (X : Externals) (file_obj : File) (w : World) (orig : bytes) :
  fs w !! file_path file_obj = Some orig ->
  replaces_once X (file_path file_obj) (mktemp X (fs w)) orig w
    (sign_file STATUS_PUBLIC settings X file_obj w).
Proof.
  intros Horig.
  destruct (sign_file_shape STATUS_PUBLIC settings X file_obj w orig Horig)
    as (pre & mid & tail & Hrun & Hpre & _ & Htail & Hmid).
  exists pre, mid, tail. split; [exact Hrun|]. split; [exact Hpre|].
  split; [exact Htail|].
  destruct Hmid as [[-> _] | Hmid]; [now left | now right].
Qed.

(** C1.  While [call_signing], and [sign_file] around it, run on a file
    that holds the bytes [orig], the file's path shows at every moment
    either [orig] or the complete output of [make_signed]; the one event
    that changes the path is the [os.rename] of the temporary file onto
    it, which happens at most once; and a run that raises has left the
    path untouched. *)
Theorem canonical_path_replaced_atomically (STATUS_PUBLIC : Z) (settings : Settings)
    (X : Externals) (file_obj : File) (w : World) (orig : bytes) :
  fs w !! file_path file_obj = Some orig ->
  atomic_replacement X (file_path file_obj) (mktemp X (fs w)) orig w
    (call_signing STATUS_PUBLIC settings X file_obj w)
  /\ atomic_replacement X (file_path file_obj) (mktemp X (fs w)) orig w
       (sign_file STATUS_PUBLIC settings X file_obj w).
Proof.
  intros Horig. split; apply replaces_once_atomic; try assumption.
  - now apply call_signing_replaces_once.
  - now apply sign_file_replaces_once.
Qed.

(** ** Signing a version *)

Section Versions.

Context (STATUS_PUBLIC : Z) (settings : Settings) (X : Externals).

Lemma sign_each_raise (file_obj : File) (rest : list File) (w w' : World) (e : exn) :
  sign_file STATUS_PUBLIC settings X file_obj w = (Raise e, w') ->
  sign_each STATUS_PUBLIC settings X (file_obj :: rest) w
  = (Raise e, push (EvTiming "services.sign.addon") w').
Proof. intros H. simpl. unfold bind, with_timer. now rewrite H. Qed.

Lemma sign_each_ok (file_obj : File) (rest : list File) (w w' : World) :
  sign_file STATUS_PUBLIC settings X file_obj w = (Ok tt, w') ->
  sign_each STATUS_PUBLIC settings X (file_obj :: rest) w
  = sign_each STATUS_PUBLIC settings X rest (push (EvTiming "services.sign.addon") w').
Proof. intros H. simpl. unfold bind, with_timer. now rewrite H. Qed.

Lemma sign_each_app (before rest : list File) (w w1 : World) :
  sign_each STATUS_PUBLIC settings X before w = (Ok tt, w1) ->
  sign_each STATUS_PUBLIC settings X (before ++ rest) w
  = sign_each STATUS_PUBLIC settings X rest w1.
Proof.
  revert w. induction before as [|f before IH]; intros w H.
  - simpl in H. unfold ret in H. now injection H as <-.
  - simpl in H. unfold bind at 1 in H. unfold with_timer in H.
    destruct (sign_file STATUS_PUBLIC settings X f w) as [[[]|e] w'] eqn:Hf.
    + simpl app. rewrite (sign_each_ok _ _ _ _ Hf). now apply IH.
    + discriminate.
Qed.

Lemma sign_nonempty (version : Version) (w : World) :
  all_files version <> [] ->
  sign STATUS_PUBLIC settings X version w
  = sign_each STATUS_PUBLIC settings X
      (List.filter can_be_signed (all_files version))
      (push (EvLog INFO ("Signing version: " +:+ pretty (version_pk version))) w).
Proof.
  intros H. unfold sign. destruct (all_files version); [contradiction|reflexivity].
Qed.

End Versions.

(** C3, as amended.  [sign] stops at the first signable file whose
    [sign_file] raises (the signable files before it having returned
    normally, signed or not): the exception goes to the caller at once,
    and the outcome does not depend on the files after it, none of which
    is tried. *)
Theorem sign_stops_at_first_failure (STATUS_PUBLIC : Z) (settings : Settings)
    (X : Externals) (version : Version) (w : World)
    (before : list File) (file_obj : File) (after : list File)
    (e : exn) (w1 w2 : World) :
  List.filter can_be_signed (all_files version) = (before ++ file_obj :: after)%list ->
  sign_each STATUS_PUBLIC settings X before
    (push (EvLog INFO ("Signing version: " +:+ pretty (version_pk version))) w)
  = (Ok tt, w1) ->
  sign_file STATUS_PUBLIC settings X file_obj w1 = (Raise e, w2) ->
  sign STATUS_PUBLIC settings X version w
  = (Raise e, push (EvTiming "services.sign.addon") w2).
Proof.
  intros Hfiles Hbefore Hfail.
  rewrite sign_nonempty.
  - rewrite Hfiles, (sign_each_app _ _ _ _ _ _ _ Hbefore).
    now apply sign_each_raise.
  - intros Hnil. rewrite Hnil in Hfiles. simpl in Hfiles.
    now destruct before.
Qed.

(** C6, as amended.  For a version without files [sign] logs one error
    and raises [SigningError("No file")]; that log line is the only
    effect, so nothing is posted and [sign_file] is never entered. *)
Theorem sign_without_files (STATUS_PUBLIC : Z) (settings : Settings)
    (X : Externals) (version : Version) (w : World) :
  all_files version = [] ->
  sign STATUS_PUBLIC settings X version w
  = (Raise (SigningError "No file"),
     push_all [EvLog ERROR ("Attempt to sign version "
                            +:+ pretty (version_pk version) +:+ " with no files.")] w)
  /\ fs (snd (sign STATUS_PUBLIC settings X version w)) = fs w
  /\ db (snd (sign STATUS_PUBLIC settings X version w)) = db w
  /\ forallb (fun e => negb (is_post e))
       (drop (length (trace w)) (trace (snd (sign STATUS_PUBLIC settings X version w))))
     = true.
Proof.
  intros H. unfold sign. rewrite H. simpl.
  split; [reflexivity|]. split; [reflexivity|]. split; [reflexivity|].
  now rewrite drop_app_length.
Qed.

(** [attempted] does see every run of [sign_file]. *)
Lemma attempted_app (file_obj : File) (a b : list event) :
  attempted file_obj (a ++ b) = attempted file_obj a || attempted file_obj b.
Proof. apply existsb_app. Qed.

Lemma call_signing_other_exception_reads (STATUS_PUBLIC : Z) (settings : Settings)
    (X : Externals) (file_obj : File) (w w' : World) (name : string) :
  call_signing STATUS_PUBLIC settings X file_obj w = (Raise (OtherException name), w') ->
  exists a b, trace w' = (a ++ EvRead (file_path file_obj) :: b)%list.
Proof.
  intros Hc.
  destruct (get_endpoint STATUS_PUBLIC settings file_obj) as [endpoint|] eqn:He.
  2: { unfold call_signing in Hc. rewrite He in Hc. discriminate. }
  destruct (fs w !! file_path file_obj) as [orig|] eqn:Horig.
  2: { assert (Hx : extraction_fails X (fs w) (file_path file_obj)).
       { unfold extraction_fails. now rewrite Horig. }
       destruct (call_signing_extraction_failed _ _ _ _ _ _ He Hx) as (evs & Hc' & _).
       rewrite Hc' in Hc. discriminate. }
  destruct (jar_signatures X orig) as [sigs|] eqn:Hs.
  2: { assert (Hx : extraction_fails X (fs w) (file_path file_obj)).
       { unfold extraction_fails. now rewrite Horig. }
       destruct (call_signing_extraction_failed _ _ _ _ _ _ He Hx) as (evs & Hc' & _).
       rewrite Hc' in Hc. discriminate. }
  rewrite (call_signing_extracted _ _ _ _ _ _ _ _ He Horig Hs) in Hc.
  set (tmp := mktemp X (fs w)) in *.
  set (jar := {| jar_in := orig; jar_out := tmp; signatures := sigs |}) in *.
  set (pre0 := [EvCreate tmp; EvUnlink tmp; EvRead (file_path file_obj);
                EvLog INFO ("File signature contents: " +:+ sigs);
                EvLog INFO ("Calling signing service: " +:+ endpoint)]) in *.
  assert (Hext : exists evs, w' = push_all evs (push_all pre0 w)).
  { destruct (post_signature_cases X endpoint (SIGNING_SERVER_TIMEOUT settings)
                (addon_slug file_obj +:+ "-" +:+ version_string file_obj) jar
                (push_all pre0 w)) as (r & evs & Hp & _).
    destruct r as [resp | e].
    - rewrite (bind_ok _ _ _ _ _ Hp) in Hc.
      destruct (apply_signature_shape X file_obj tmp jar resp
                  (push_all evs (push_all pre0 w)) eq_refl
                  (fresh_differs X _ _ orig Horig))
        as (pre1 & _ & _ & [[e Ha] | (serial & signed & Ha & _)]);
        rewrite Ha in Hc; [|discriminate].
      injection Hc as _ <-. exists (evs ++ pre1)%list. now rewrite push_all_app.
    - rewrite (bind_raise _ _ _ _ _ Hp) in Hc. injection Hc as _ <-. now exists evs. }
  destruct Hext as [evs ->]. rewrite !trace_push_all.
  exists (trace w ++ [EvCreate tmp; EvUnlink tmp])%list,
         ([EvLog INFO ("File signature contents: " +:+ sigs);
           EvLog INFO ("Calling signing service: " +:+ endpoint)] ++ evs)%list.
  unfold pre0. now rewrite <- !app_assoc.
Qed.

Lemma sign_file_attempted (STATUS_PUBLIC : Z) (settings : Settings)
    (X : Externals) (file_obj : File) (w : World) :
  attempted file_obj (trace (snd (sign_file STATUS_PUBLIC settings X file_obj w))) = true.
Proof.
  destruct (can_be_signed file_obj) eqn:Hcan.
  2: { unfold sign_file. rewrite Hcan. simpl.
       rewrite attempted_app. simpl. rewrite String.eqb_refl.
       now rewrite !orb_true_r. }
  rewrite (sign_file_eligible _ _ _ _ _ Hcan).
  destruct (call_signing STATUS_PUBLIC settings X file_obj w)
    as [[[serial|] | [msg|name]] w'] eqn:Hc.
  - destruct (truthy serial); cbn [snd]; rewrite trace_push_all, attempted_app;
      simpl; rewrite String.eqb_refl; now rewrite !orb_true_r.
  - cbn [snd]. rewrite trace_push_all, attempted_app.
    simpl. rewrite String.eqb_refl. now rewrite !orb_true_r.
  - cbn [snd]. rewrite trace_push_all, attempted_app.
    simpl. rewrite String.eqb_refl. now rewrite !orb_true_r.
  - destruct (call_signing_other_exception_reads _ _ _ _ _ _ _ Hc) as (a & b & Ht).
    cbn [snd]. rewrite Ht, attempted_app. simpl. rewrite String.eqb_refl.
    now rewrite orb_true_r.
Qed.

(** X1.  In every run of [sign_file], whatever fails or succeeds, a write
    of [cert_serial_num] is preceded by the rename of the temporary file
    onto the file's path. *)
Theorem record_written_only_after_rename (STATUS_PUBLIC : Z) (settings : Settings)
    (X : Externals) (file_obj : File) (w : World) :
  exists evs,
    snd (sign_file STATUS_PUBLIC settings X file_obj w) = push_all evs w
    /\ forall (i : nat) (k : Z) (serial : pyval),
         evs !! i = Some (EvUpdate k serial) ->
         exists j : nat,
           (j < i)%nat
           /\ evs !! j = Some (EvRename (mktemp X (fs w)) (file_path file_obj)).
Proof.
  assert (Hquiet : forall evs : list event,
            forallb no_db_effect evs = true ->
            forall (i : nat) (k : Z) (serial : pyval),
              evs !! i = Some (EvUpdate k serial) -> False).
  { intros evs Hq i k serial Hi.
    pose proof (forallb_lookup _ _ _ _ Hq Hi) as Hn. discriminate. }
  destruct (fs w !! file_path file_obj) as [orig|] eqn:Horig.
  - destruct (sign_file_shape STATUS_PUBLIC settings X file_obj w orig Horig)
      as (pre & mid & tail & Hrun & _ & Hdb & _ & [[-> Htail] | (-> & _)]).
    + exists (pre ++ [] ++ tail)%list. split; [exact Hrun|].
      intros i k serial Hi. exfalso.
      apply (Hquiet (pre ++ [] ++ tail)%list) in Hi; [assumption|].
      now rewrite !forallb_app, Hdb, Htail.
    + eexists. split; [exact Hrun|].
      intros i k serial Hi.
      apply lookup_app_Some in Hi as [Hi | [Hge Hi]].
      * now destruct (Hquiet pre Hdb i k serial).
      * exists (length pre). split.
        -- destruct (i - length pre)%nat eqn:Hd; [discriminate|lia].
        -- rewrite lookup_app_r by lia. now rewrite Nat.sub_diag.
  - destruct (can_be_signed file_obj) eqn:Hcan.
    2: { unfold sign_file. rewrite Hcan. simpl. eexists [_].
         split; [reflexivity|]. intros [|i] k serial Hi; discriminate. }
    rewrite (sign_file_eligible _ _ _ _ _ Hcan).
    destruct (get_endpoint STATUS_PUBLIC settings file_obj) as [endpoint|] eqn:He.
    + assert (Hx : extraction_fails X (fs w) (file_path file_obj)).
      { unfold extraction_fails. now rewrite Horig. }
      destruct (call_signing_extraction_failed _ _ _ _ _ _ He Hx)
        as (evs & Hc & _ & _ & _ & Hdb & _).
      rewrite Hc. eexists (evs ++ [_])%list. cbn [snd].
      split; [now rewrite push_all_app|].
      intros i k serial Hi. exfalso.
      apply (Hquiet _) in Hi; [assumption|]. now rewrite forallb_app, Hdb.
    + unfold call_signing. rewrite He. eexists [_; _].
      split; [reflexivity|].
      intros [|[|i]] k serial Hi; discriminate.
Qed.

(** * The module run on the fake service *)

Import Fixture.

(** The public file is replaced at one stroke. *)
Lemma canonical_path_replaced_atomically_on_fixture :
  atomic_replacement healthy "/storage/7/addon.xpi" (mktemp healthy (fs world)) xpi world
    (call_signing STATUS_PUBLIC settings healthy public_file world)
  /\ atomic_replacement healthy "/storage/7/addon.xpi" (mktemp healthy (fs world)) xpi world
       (sign_file STATUS_PUBLIC settings healthy public_file world).
Proof.
  apply (canonical_path_replaced_atomically STATUS_PUBLIC settings healthy
           public_file world xpi).
  reflexivity.
Defined.

(** The public file is signed and serial number 4096 recorded. *)
Lemma public_file_signed_and_recorded_on_fixture :
  fst (call_signing STATUS_PUBLIC settings healthy public_file world)
  = Ok (Some (PyInt 4096))
  /\ fs (snd (sign_file STATUS_PUBLIC settings healthy public_file world))
     !! "/storage/7/addon.xpi"
     = Some (xpi ++ list_byte_of_string "MIIBzigbert")%list
  /\ db (snd (sign_file STATUS_PUBLIC settings healthy public_file world)) !! 7
     = Some (PyInt 4096).
Proof.
  destruct (public_file_signed_and_recorded STATUS_PUBLIC settings healthy
              public_file world "https://signing.example/1.0/sign_addon" xpi
              "SHA1-Digest-Manifest: x"
              {| status_code := 200; reason := "OK"; content := "MIIBzigbert" |}
              (list_byte_of_string "MIIBzigbert") (PyInt 4096)
              [xpi; list_byte_of_string "MIIBzigbert"])
    as (Hcall & _ & _ & _ & Hfs & Hdb); try reflexivity.
  rewrite Hcall. split; [reflexivity|]. split; [exact Hfs|exact Hdb].
Defined.

(** C2, the claim as stated, fails when the certificate's serial number
    is 0: the file is public, signable and a sound archive, the service
    answers 200 with a decodable [zigbert.rsa], [call_signing] returns
    the serial number and the file is replaced, yet no serial number is
    stored on the record. *)
Lemma zero_serial_returned_but_not_stored :
  can_be_signed public_file = true
  /\ status public_file = STATUS_PUBLIC
  /\ jar_signatures zero_serial xpi = Some "SHA1-Digest-Manifest: x"
  /\ requests_post zero_serial
       (signing_request settings public_file
          "https://signing.example/1.0/sign_addon" "SHA1-Digest-Manifest: x")
     = PostResponse {| status_code := 200; reason := "OK"; content := "MIIBzigbert" |}
  /\ zigbert_rsa zero_serial "MIIBzigbert" = Some (list_byte_of_string "MIIBzigbert")
  /\ get_signature_serial_number zero_serial (list_byte_of_string "MIIBzigbert")
     = Some (PyInt 0)
  /\ fst (call_signing STATUS_PUBLIC settings zero_serial public_file world)
     = Ok (Some (PyInt 0))
  /\ fst (sign_file STATUS_PUBLIC settings zero_serial public_file world) = Ok tt
  /\ fs (snd (sign_file STATUS_PUBLIC settings zero_serial public_file world))
     !! "/storage/7/addon.xpi"
     = Some (xpi ++ list_byte_of_string "MIIBzigbert")%list
  /\ db (snd (sign_file STATUS_PUBLIC settings zero_serial public_file world)) !! 7
     = None.
Proof. vm_compute. repeat split. Qed.

(** A page that is not an archive: the error comes before any request. *)
Lemma extraction_failure_precedes_network_on_fixture :
  exists evs,
    call_signing STATUS_PUBLIC settings healthy broken_file world
    = (Raise (SigningError "Archive extraction failed. Bad archive?"), push_all evs world)
    /\ forallb (fun e => negb (is_post e)) evs = true
    /\ fs (push_all evs world) = fs world
    /\ db (push_all evs world) = db world.
Proof.
  apply (extraction_failure_precedes_network STATUS_PUBLIC settings healthy
           broken_file world "https://signing.example/1.0/sign_addon").
  - reflexivity.
  - vm_compute. reflexivity.
Defined.

(** The service answers 500. *)
Lemma non_2xx_raises_with_reason_on_fixture :
  fst (call_signing STATUS_PUBLIC settings failing public_file world)
  = Raise (SigningError "Posting to add-on signing failed Internal Server Error")
  /\ fs (snd (sign_file STATUS_PUBLIC settings failing public_file world)) = fs world.
Proof.
  destruct (non_2xx_raises_with_reason STATUS_PUBLIC settings failing
              public_file world "https://signing.example/1.0/sign_addon" xpi
              "SHA1-Digest-Manifest: x"
              {| status_code := 500; reason := "Internal Server Error"; content := "" |})
    as (Hcall & _ & _ & _ & Hfs & _); try reflexivity.
  - simpl. lia.
  - rewrite Hcall. split; [reflexivity|exact Hfs].
Defined.

(** No server configured: nothing happens. *)
Lemma signing_disabled_is_noop_on_fixture :
  call_signing STATUS_PUBLIC signing_disabled healthy public_file world
  = (Ok None, push_all [EvLog WARNING "Not signing: no active endpoint"] world)
  /\ fs (snd (sign_file STATUS_PUBLIC signing_disabled healthy public_file world))
     = fs world
  /\ db (snd (sign_file STATUS_PUBLIC signing_disabled healthy public_file world))
     = db world.
Proof.
  destruct (signing_disabled_is_noop STATUS_PUBLIC signing_disabled healthy
              public_file world) as (Hcall & _ & _ & _ & Hfs & Hdb).
  - reflexivity.
  - split; [exact Hcall|]. split; [exact Hfs|exact Hdb].
Defined.

(** A search plugin is not signable. *)
Lemma ineligible_rejected_at_gate_on_fixture :
  sign_file STATUS_PUBLIC settings healthy search_plugin world
  = (Raise (SigningError "Attempt to sign a non-xpi file 10."),
     push_all [EvLog ERROR "Attempt to sign a non-xpi file 10."] world).
Proof.
  apply (ineligible_rejected_at_gate STATUS_PUBLIC settings healthy search_plugin world).
  reflexivity.
Defined.

(** The version whose second signable file is broken: the first one is
    signed, the run ends at the broken one, and the third keeps its
    unsigned bytes. *)
Lemma sign_stops_at_first_failure_on_fixture :
  exists w2,
    sign STATUS_PUBLIC settings healthy late_failure_version world
    = (Raise (SigningError "Archive extraction failed. Bad archive?"),
       push (EvTiming "services.sign.addon") w2)
    /\ fs w2 !! "/storage/8/addon.xpi" = Some xpi2
    /\ attempted unreviewed_file (trace w2) = false.
Proof.
  eexists. split.
  - eapply (sign_stops_at_first_failure STATUS_PUBLIC settings healthy
              late_failure_version world [public_file] broken_file [unreviewed_file]).
    + reflexivity.
    + vm_compute. reflexivity.
    + vm_compute. reflexivity.
  - vm_compute. split; reflexivity.
Defined.

(** C3, the claim as stated, fails on that version: the broken file and
    the sound one are both signable, signing the broken one fails, and
    the sound one, which [sign_file] would have signed, is never tried:
    the trace ends with the failure and the file keeps its unsigned
    bytes. *)
Lemma second_file_never_attempted :
  List.filter can_be_signed (all_files mixed_version) = [broken_file; public_file]
  /\ fst (sign STATUS_PUBLIC settings healthy mixed_version world)
     = Raise (SigningError "Archive extraction failed. Bad archive?")
  /\ trace (snd (sign STATUS_PUBLIC settings healthy mixed_version world))
     = [EvLog INFO "Signing version: 4";
        EvCreate (mktemp healthy (fs world)); EvUnlink (mktemp healthy (fs world));
        EvRead "/storage/9/page.xpi";
        EvLog ERROR "Archive extraction failed. Bad archive?";
        EvLog INFO "Signing failed for file 9.";
        EvTiming "services.sign.addon"]
  /\ attempted broken_file
       (trace (snd (sign STATUS_PUBLIC settings healthy mixed_version world))) = true
  /\ attempted public_file
       (trace (snd (sign STATUS_PUBLIC settings healthy mixed_version world))) = false
  /\ fs (snd (sign STATUS_PUBLIC settings healthy mixed_version world))
     !! "/storage/7/addon.xpi" = Some xpi
  /\ fst (sign_file STATUS_PUBLIC settings healthy public_file world) = Ok tt.
Proof. vm_compute. repeat split. Qed.

(** The version without files. *)
Lemma sign_without_files_on_fixture :
  sign STATUS_PUBLIC settings healthy empty_version world
  = (Raise (SigningError "No file"),
     push_all [EvLog ERROR "Attempt to sign version 3 with no files."] world).
Proof.
  apply (sign_without_files STATUS_PUBLIC settings healthy empty_version world).
  reflexivity.
Defined.

(** C6, the claim as stated, fails on the message: the error raised for
    a version without files says ["No file"], not ["no files"]. *)
Lemma no_files_message_differs :
  all_files empty_version = []
  /\ fst (sign STATUS_PUBLIC settings healthy empty_version world)
     = Raise (SigningError "No file")
  /\ fst (sign STATUS_PUBLIC settings healthy empty_version world)
     <> Raise (SigningError "no files").
Proof. repeat split. discriminate. Qed.


(** An unreviewed file goes to the preliminary server and not to the
    default one. *)
Lemma get_endpoint_by_status_on_fixture :
  get_endpoint STATUS_PUBLIC settings unreviewed_file
  = Some "https://prelim.example/1.0/sign_addon"
  /\ get_endpoint STATUS_PUBLIC settings unreviewed_file
     <> Some "https://signing.example/1.0/sign_addon"
  /\ get_endpoint STATUS_PUBLIC settings public_file
     = Some "https://signing.example/1.0/sign_addon".
Proof.
  destruct (get_endpoint_by_status STATUS_PUBLIC settings unreviewed_file)
    as (_ & _ & Hprelim & _ & Hnot).
  destruct (get_endpoint_by_status STATUS_PUBLIC settings public_file)
    as (_ & Hpublic & _).
  split; [apply Hprelim; discriminate|].
  split; [apply (Hnot ltac:(discriminate) "https://signing.example" eq_refl); discriminate|].
  apply Hpublic. reflexivity.
Defined.

(** A public file has no endpoint when only the preliminary server is
    configured, and an unreviewed one has none when only the default is. *)
Lemma get_endpoint_ignores_other_server_on_fixture :
  get_endpoint STATUS_PUBLIC
    {| SIGNING_SERVER := None;
       PRELIMINARY_SIGNING_SERVER := Some "https://prelim.example";
       SIGNING_SERVER_TIMEOUT := 10 |} public_file = None
  /\ get_endpoint STATUS_PUBLIC
       {| SIGNING_SERVER := Some "https://signing.example";
          PRELIMINARY_SIGNING_SERVER := Some "";
          SIGNING_SERVER_TIMEOUT := 10 |} unreviewed_file = None.
Proof.
  destruct (get_endpoint_ignores_other_server STATUS_PUBLIC public_file
              None (Some "https://prelim.example") None 10 10) as (_ & _ & Hpublic & _).
  destruct (get_endpoint_ignores_other_server STATUS_PUBLIC unreviewed_file
              (Some "https://signing.example") (Some "") None 10 10) as (_ & _ & _ & Hother).
  split.
  - apply Hpublic; [reflexivity|now left].
  - apply Hother; [discriminate|now right].
Defined.

(** * Beyond the claims: the other ways one file's signing can go *)

(** [post_signature] for each thing [requests.post] can do. *)
Lemma post_signature_outcome (X : Externals) (endpoint : string) (timeout : Z)
    (addon_id : string) (jar : Jar) (w : World) :
  let req := {| req_endpoint := endpoint; req_timeout := timeout;
                req_addon_id := addon_id;
                req_file := ("zigbert.sf", signatures jar) |} in
  let w1 := push_all [EvPost req; EvTiming "services.sign.addon"] w in
  post_signature X endpoint timeout addon_id jar w
  = match requests_post X req with
    | PostResponse r =>
        if negb (Z.eqb (status_code r) 200)
        then (Raise (SigningError ("Posting to add-on signing failed " +:+ reason r)),
              push_all [EvLog ERROR ("Posting to add-on signing failed " +:+ reason r)] w1)
        else (Ok r, w1)
    | PostHTTPError (Some st) err =>
        (Raise (SigningError ("Posting to add-on signing failed: " +:+ st +:+ ", " +:+ err)),
         push_all [EvLog ERROR ("Posting to add-on signing failed: "
                                +:+ st +:+ ", " +:+ err)] w1)
    | PostHTTPError None _ => (Raise (OtherException "AttributeError"), w1)
    | PostFailure =>
        (Raise (SigningError "Posting to add-on signing failed"),
         push_all [EvLog ERROR "Posting to add-on signing failed"] w1)
    end.
Proof.
  intros req w1.
  unfold post_signature, with_timer, requests_post_call, bind, emit, ret.
  fold req.
  destruct (requests_post X req) as [r | [st|] err | ]; try reflexivity.
  now destruct (negb (Z.eqb (status_code r) 200)).
Qed.

Lemma post_signature_for_file (X : Externals) (settings : Settings) (file_obj : File)
    (endpoint : string) (orig : bytes) (tmp sigs : string) (w : World) :
  let req := signing_request settings file_obj endpoint sigs in
  let w1 := push_all [EvPost req; EvTiming "services.sign.addon"] w in
  post_signature X endpoint (SIGNING_SERVER_TIMEOUT settings)
    (addon_slug file_obj +:+ "-" +:+ version_string file_obj)
    {| jar_in := orig; jar_out := tmp; signatures := sigs |} w
  = match requests_post X req with
    | PostResponse r =>
        if negb (Z.eqb (status_code r) 200)
        then (Raise (SigningError ("Posting to add-on signing failed " +:+ reason r)),
              push_all [EvLog ERROR ("Posting to add-on signing failed " +:+ reason r)] w1)
        else (Ok r, w1)
    | PostHTTPError (Some st) err =>
        (Raise (SigningError ("Posting to add-on signing failed: " +:+ st +:+ ", " +:+ err)),
         push_all [EvLog ERROR ("Posting to add-on signing failed: "
                                +:+ st +:+ ", " +:+ err)] w1)
    | PostHTTPError None _ => (Raise (OtherException "AttributeError"), w1)
    | PostFailure =>
        (Raise (SigningError "Posting to add-on signing failed"),
         push_all [EvLog ERROR "Posting to add-on signing failed"] w1)
    end.
Proof.
  exact (post_signature_outcome X endpoint (SIGNING_SERVER_TIMEOUT settings)
           (addon_slug file_obj +:+ "-" +:+ version_string file_obj)
           {| jar_in := orig; jar_out := tmp; signatures := sigs |} w).
Qed.

(** [call_signing] when the request is posted and does not come back with
    a response that passes the status check. *)
Lemma call_signing_post_raises (STATUS_PUBLIC : Z) (settings : Settings)
    (X : Externals) (file_obj : File) (w : World)
    (endpoint : string) (orig : bytes) (sigs : string) (e : exn) (logs : list event) :
  get_endpoint STATUS_PUBLIC settings file_obj = Some endpoint ->
  fs w !! file_path file_obj = Some orig ->
  jar_signatures X orig = Some sigs ->
  post_signature X endpoint (SIGNING_SERVER_TIMEOUT settings)
    (addon_slug file_obj +:+ "-" +:+ version_string file_obj)
    {| jar_in := orig; jar_out := mktemp X (fs w); signatures := sigs |}
    (push_all [EvCreate (mktemp X (fs w)); EvUnlink (mktemp X (fs w));
               EvRead (file_path file_obj);
               EvLog INFO ("File signature contents: " +:+ sigs);
               EvLog INFO ("Calling signing service: " +:+ endpoint)] w)
  = (Raise e,
     push_all logs
       (push_all (events_until_post settings file_obj (mktemp X (fs w)) endpoint sigs) w)) ->
  call_signing STATUS_PUBLIC settings X file_obj w
  = (Raise e,
     push_all (events_until_post settings file_obj (mktemp X (fs w)) endpoint sigs ++ logs) w).
Proof.
  intros He Hf Hs Hp.
  rewrite (call_signing_extracted _ _ _ _ _ _ _ _ He Hf Hs).
  rewrite (bind_raise _ _ _ _ _ Hp). now rewrite push_all_app.
Qed.

(** What is left of the world after the request has failed: the files and
    the serial numbers as before, one request posted. *)
Lemma failed_post_world (settings : Settings) (file_obj : File) (w : World)
    (tmp endpoint sigs : string) (lvl : level) (msg : string) :
  fs w !! tmp = None ->
  let evs := (events_until_post settings file_obj tmp endpoint sigs
              ++ [EvLog lvl msg])%list in
  fs (push_all evs w) = fs w
  /\ db (push_all evs w) = db w
  /\ List.filter is_post evs = [EvPost (signing_request settings file_obj endpoint sigs)].
Proof.
  intros Hfresh evs. split; [|split].
  - rewrite fs_push_all. unfold evs. rewrite replay_app.
    now rewrite replay_until_post.
  - now apply db_push_all_quiet.
  - reflexivity.
Qed.

(** X2.  When [requests.post] raises anything but [HTTPError] (the service
    cannot be reached, the call times out), [call_signing] raises
    [SigningError("Posting to add-on signing failed")] after that single
    request: it does not try again, and files and serial numbers are as
    before.  [sign_file] passes the error on. *)
Theorem transport_failure_is_signing_error (STATUS_PUBLIC : Z) (settings : Settings)
    (X : Externals) (file_obj : File) (w : World)
    (endpoint : string) (orig : bytes) (sigs : string) :
  get_endpoint STATUS_PUBLIC settings file_obj = Some endpoint ->
  fs w !! file_path file_obj = Some orig ->
  jar_signatures X orig = Some sigs ->
  requests_post X (signing_request settings file_obj endpoint sigs) = PostFailure ->
  let failure := SigningError "Posting to add-on signing failed" in
  let evs := (events_until_post settings file_obj (mktemp X (fs w)) endpoint sigs
              ++ [EvLog ERROR "Posting to add-on signing failed"])%list in
  call_signing STATUS_PUBLIC settings X file_obj w = (Raise failure, push_all evs w)
  /\ List.filter is_post evs = [EvPost (signing_request settings file_obj endpoint sigs)]
  /\ fs (push_all evs w) = fs w
  /\ db (push_all evs w) = db w
  /\ (can_be_signed file_obj = true ->
      sign_file STATUS_PUBLIC settings X file_obj w
      = (Raise failure,
         push_all (evs ++ [EvLog INFO ("Signing failed for file "
                                       +:+ pretty (pk file_obj) +:+ ".")]) w)).
Proof.
  intros He Hf Hs Hp failure evs.
  assert (Hc : call_signing STATUS_PUBLIC settings X file_obj w
               = (Raise failure, push_all evs w)).
  { apply (call_signing_post_raises _ _ _ _ _ _ orig); try assumption.
    rewrite post_signature_for_file. cbv zeta.
    rewrite Hp. now rewrite <- push_all_app. }
  destruct (failed_post_world settings file_obj w (mktemp X (fs w)) endpoint sigs ERROR
              "Posting to add-on signing failed" (mktemp_fresh X _)) as (Hfs & Hdb & Hposts).
  split; [exact Hc|]. split; [exact Hposts|]. split; [exact Hfs|]. split; [exact Hdb|].
  intros Hcan. rewrite (sign_file_eligible _ _ _ _ _ Hcan), Hc. unfold failure.
  now rewrite <- push_all_app.
Qed.

(** X3.  When [requests.post] raises [HTTPError] and the error's response
    has a [status], [call_signing] raises a [SigningError] whose message is
    ["Posting to add-on signing failed: "], that status, a comma and the
    error's text; files and serial numbers are as before. *)
Theorem http_error_is_signing_error (STATUS_PUBLIC : Z) (settings : Settings)
    (X : Externals) (file_obj : File) (w : World)
    (endpoint : string) (orig : bytes) (sigs st err : string) :
  get_endpoint STATUS_PUBLIC settings file_obj = Some endpoint ->
  fs w !! file_path file_obj = Some orig ->
  jar_signatures X orig = Some sigs ->
  requests_post X (signing_request settings file_obj endpoint sigs)
  = PostHTTPError (Some st) err ->
  let msg := "Posting to add-on signing failed: " +:+ st +:+ ", " +:+ err in
  let evs := (events_until_post settings file_obj (mktemp X (fs w)) endpoint sigs
              ++ [EvLog ERROR msg])%list in
  call_signing STATUS_PUBLIC settings X file_obj w = (Raise (SigningError msg), push_all evs w)
  /\ fs (push_all evs w) = fs w
  /\ db (push_all evs w) = db w.
Proof.
  intros He Hf Hs Hp msg evs.
  destruct (failed_post_world settings file_obj w (mktemp X (fs w)) endpoint sigs ERROR
              msg (mktemp_fresh X _)) as (Hfs & Hdb & _).
  split; [|split; assumption].
  apply (call_signing_post_raises _ _ _ _ _ _ orig); try assumption.
  rewrite post_signature_for_file. cbv zeta.
  rewrite Hp. now rewrite <- push_all_app.
Qed.

(** X4.  A status that is a success but not 200 (201, 204, ...) is turned
    down like any failure: [call_signing] raises the [SigningError] with
    the response's reason and signs nothing. *)
Theorem other_2xx_is_rejected (STATUS_PUBLIC : Z) (settings : Settings)
    (X : Externals) (file_obj : File) (w : World)
    (endpoint : string) (orig : bytes) (sigs : string) (resp : Response) :
  get_endpoint STATUS_PUBLIC settings file_obj = Some endpoint ->
  fs w !! file_path file_obj = Some orig ->
  jar_signatures X orig = Some sigs ->
  requests_post X (signing_request settings file_obj endpoint sigs) = PostResponse resp ->
  200 < status_code resp < 300 ->
  fst (call_signing STATUS_PUBLIC settings X file_obj w)
  = Raise (SigningError ("Posting to add-on signing failed " +:+ reason resp))
  /\ fs (snd (call_signing STATUS_PUBLIC settings X file_obj w)) = fs w
  /\ db (snd (call_signing STATUS_PUBLIC settings X file_obj w)) = db w.
Proof.
  intros He Hf Hs Hp Hcode.
  assert (Hne : Z.eqb (status_code resp) 200 = false) by (apply Z.eqb_neq; lia).
  rewrite (call_signing_rejected _ _ _ _ _ _ _ _ _ He Hf Hs Hp Hne).
  destruct (failed_post_world settings file_obj w (mktemp X (fs w)) endpoint sigs ERROR
              ("Posting to add-on signing failed " +:+ reason resp) (mktemp_fresh X _))
    as (Hfs & Hdb & _).
  now repeat split.
Qed.

(** [call_signing] once the service has answered 200. *)
Lemma call_signing_answered (STATUS_PUBLIC : Z) (settings : Settings)
    (X : Externals) (file_obj : File) (w : World)
    (endpoint : string) (orig : bytes) (sigs : string) (resp : Response) :
  get_endpoint STATUS_PUBLIC settings file_obj = Some endpoint ->
  fs w !! file_path file_obj = Some orig ->
  jar_signatures X orig = Some sigs ->
  requests_post X (signing_request settings file_obj endpoint sigs) = PostResponse resp ->
  status_code resp = 200 ->
  call_signing STATUS_PUBLIC settings X file_obj w
  = apply_signature X file_obj (mktemp X (fs w))
      {| jar_in := orig; jar_out := mktemp X (fs w); signatures := sigs |} resp
      (push_all (events_until_post settings file_obj (mktemp X (fs w)) endpoint sigs) w).
Proof.
  intros He Hf Hs Hp Hcode.
  rewrite (call_signing_extracted _ _ _ _ _ _ _ _ He Hf Hs).
  erewrite bind_ok; [|rewrite post_signature_for_file; cbv zeta;
                      rewrite Hp, Hcode; reflexivity].
  now rewrite <- push_all_app.
Qed.

Lemma fs_until_post (settings : Settings) (file_obj : File) (w : World)
    (tmp endpoint sigs : string) :
  fs w !! tmp = None ->
  fs (push_all (events_until_post settings file_obj tmp endpoint sigs) w) = fs w.
Proof. intros H. rewrite fs_push_all. now apply replay_until_post. Qed.

(** Writing the output creates the temporary file and nothing else. *)
Lemma replay_embed_all (tmp : string) (chunks : list bytes) (m : gmap string bytes) :
  replay (EvCreate tmp :: map (EvWrite tmp) chunks) m = <[tmp := concat chunks]> m.
Proof.
  simpl. change (concat chunks) with ([] ++ concat chunks)%list.
  generalize (@nil Byte.byte) as acc.
  induction chunks as [|c rest IH]; intros acc; simpl.
  - now rewrite app_nil_r.
  - rewrite alter_insert_eq, IH. now rewrite <- app_assoc.
Qed.

Lemma db_embed (tmp : string) (chunks : list bytes) (w : World) :
  db (push_all (EvCreate tmp :: map (EvWrite tmp) chunks) w) = db w.
Proof. apply db_push_all_quiet. simpl. apply writes_no_db. Qed.

(** X5.  When the service answers 200 but the body does not decode to a
    certificate (no [zigbert.rsa], bad JSON, bad base64), the exception
    that leaves [call_signing] is not a [SigningError]: a caller that
    catches [SigningError] does not catch it, and [sign_file] lets it
    through without its "Signing failed" line.  Nothing was written. *)
Theorem undecodable_body_escapes_as_other_exception (STATUS_PUBLIC : Z)
    (settings : Settings) (X : Externals) (file_obj : File) (w : World)
    (endpoint : string) (orig : bytes) (sigs : string) (resp : Response) :
  get_endpoint STATUS_PUBLIC settings file_obj = Some endpoint ->
  fs w !! file_path file_obj = Some orig ->
  jar_signatures X orig = Some sigs ->
  requests_post X (signing_request settings file_obj endpoint sigs) = PostResponse resp ->
  status_code resp = 200 ->
  zigbert_rsa X (content resp) = None ->
  let evs := events_until_post settings file_obj (mktemp X (fs w)) endpoint sigs in
  exists name,
    call_signing STATUS_PUBLIC settings X file_obj w
    = (Raise (OtherException name), push_all evs w)
    /\ (can_be_signed file_obj = true ->
        sign_file STATUS_PUBLIC settings X file_obj w
        = (Raise (OtherException name), push_all evs w))
    /\ fs (push_all evs w) = fs w
    /\ db (push_all evs w) = db w.
Proof.
  intros He Hf Hs Hp Hcode Hz evs. exists "ValueError".
  assert (Hc : call_signing STATUS_PUBLIC settings X file_obj w
               = (Raise (OtherException "ValueError"), push_all evs w)).
  { rewrite (call_signing_answered _ _ _ _ _ _ _ _ _ He Hf Hs Hp Hcode).
    unfold apply_signature. now rewrite Hz. }
  split; [exact Hc|]. split.
  - intros Hcan. now rewrite (sign_file_eligible _ _ _ _ _ Hcan), Hc.
  - split; [apply fs_until_post, mktemp_fresh | now apply db_push_all_quiet].
Qed.

(** [apply_signature] once the body has been decoded. *)
Lemma apply_signature_decoded (X : Externals) (file_obj : File) (tmp : string)
    (jar : Jar) (resp : Response) (w : World) (pkcs7 : bytes) :
  zigbert_rsa X (content resp) = Some pkcs7 ->
  apply_signature X file_obj tmp jar resp w
  = bind
      (try_except
         (let* n := match get_signature_serial_number X pkcs7 with
                    | Some n => ret n
                    | None => raise (OtherException "get_signature_serial_number")
                    end in
          make_signed X jar pkcs7 >> ret n)
         (fun _ => log ERROR "Addon signing failed" >>
                   raise (SigningError "Addon signing failed")))
      (fun cert_serial_num =>
         os_rename X tmp (file_path file_obj) >> ret (Some cert_serial_num)) w.
Proof. intros Hz. unfold apply_signature. now rewrite Hz. Qed.

(** X6.  When the certificate's serial number cannot be read,
    [call_signing] raises [SigningError("Addon signing failed")] before
    [make_signed] is called: no file is created or written, and no serial
    number is stored. *)
Theorem unparsable_certificate_is_signing_error (STATUS_PUBLIC : Z)
    (settings : Settings) (X : Externals) (file_obj : File) (w : World)
    (endpoint : string) (orig : bytes) (sigs : string) (resp : Response)
    (pkcs7 : bytes) :
  get_endpoint STATUS_PUBLIC settings file_obj = Some endpoint ->
  fs w !! file_path file_obj = Some orig ->
  jar_signatures X orig = Some sigs ->
  requests_post X (signing_request settings file_obj endpoint sigs) = PostResponse resp ->
  status_code resp = 200 ->
  zigbert_rsa X (content resp) = Some pkcs7 ->
  get_signature_serial_number X pkcs7 = None ->
  let evs := (events_until_post settings file_obj (mktemp X (fs w)) endpoint sigs
              ++ [EvLog ERROR "Addon signing failed"])%list in
  call_signing STATUS_PUBLIC settings X file_obj w
  = (Raise (SigningError "Addon signing failed"), push_all evs w)
  /\ fs (push_all evs w) = fs w
  /\ db (push_all evs w) = db w.
Proof.
  intros He Hf Hs Hp Hcode Hz Hn evs.
  destruct (failed_post_world settings file_obj w (mktemp X (fs w)) endpoint sigs ERROR
              "Addon signing failed" (mktemp_fresh X _)) as (Hfs & Hdb & _).
  split; [|split; assumption].
  rewrite (call_signing_answered _ _ _ _ _ _ _ _ _ He Hf Hs Hp Hcode).
  rewrite (apply_signature_decoded _ _ _ _ _ _ _ Hz).
  unfold bind at 1. unfold try_except at 1. unfold bind at 1. rewrite Hn.
  unfold evs. now rewrite push_all_app.
Qed.

(** X7.  When [make_signed] raises part-way, [call_signing] raises
    [SigningError("Addon signing failed")]; the file itself is untouched,
    but what [make_signed] had written stays behind under the temporary
    name: nothing removes it. *)
Theorem interrupted_embedding_leaves_temporary_file (STATUS_PUBLIC : Z)
    (settings : Settings) (X : Externals) (file_obj : File) (w : World)
    (endpoint : string) (orig : bytes) (sigs : string) (resp : Response)
    (pkcs7 : bytes) (serial : pyval) (chunks : list bytes) :
  get_endpoint STATUS_PUBLIC settings file_obj = Some endpoint ->
  fs w !! file_path file_obj = Some orig ->
  jar_signatures X orig = Some sigs ->
  requests_post X (signing_request settings file_obj endpoint sigs) = PostResponse resp ->
  status_code resp = 200 ->
  zigbert_rsa X (content resp) = Some pkcs7 ->
  get_signature_serial_number X pkcs7 = Some serial ->
  jar_make_signed X orig pkcs7 = (chunks, false) ->
  let tmp := mktemp X (fs w) in
  fst (call_signing STATUS_PUBLIC settings X file_obj w)
  = Raise (SigningError "Addon signing failed")
  /\ fs (snd (call_signing STATUS_PUBLIC settings X file_obj w))
     = <[tmp := concat chunks]> (fs w)
  /\ fs (snd (call_signing STATUS_PUBLIC settings X file_obj w)) !! file_path file_obj
     = Some orig
  /\ db (snd (call_signing STATUS_PUBLIC settings X file_obj w)) = db w.
Proof.
  intros He Hf Hs Hp Hcode Hz Hn Hm tmp.
  assert (Hne : tmp <> file_path file_obj) by (now apply (fresh_differs X _ _ orig)).
  assert (Hc : call_signing STATUS_PUBLIC settings X file_obj w
               = (Raise (SigningError "Addon signing failed"),
                  push_all ((EvCreate tmp :: map (EvWrite tmp) chunks)
                            ++ [EvLog ERROR "Addon signing failed"])
                    (push_all (events_until_post settings file_obj tmp endpoint sigs) w))).
  { rewrite (call_signing_answered _ _ _ _ _ _ _ _ _ He Hf Hs Hp Hcode).
    rewrite (apply_signature_decoded _ _ _ _ _ _ _ Hz).
    unfold bind at 1. rewrite (embed_run _ _ _ _ _ Hn). simpl jar_in. simpl jar_out.
    now rewrite Hm. }
  rewrite Hc. cbn [fst snd].
  assert (Hfs : fs (push_all ((EvCreate tmp :: map (EvWrite tmp) chunks)
                              ++ [EvLog ERROR "Addon signing failed"])
                      (push_all (events_until_post settings file_obj tmp endpoint sigs) w))
                = <[tmp := concat chunks]> (fs w)).
  { rewrite push_all_app, (fs_push_all [_]), (fs_push_all (_ :: _)).
    rewrite fs_until_post by apply mktemp_fresh.
    apply replay_embed_all. }
  split; [reflexivity|]. split; [exact Hfs|]. split.
  - rewrite Hfs. now rewrite lookup_insert_ne.
  - rewrite <- push_all_app. apply db_push_all_quiet.
    rewrite !forallb_app. simpl. now rewrite writes_no_db.
Qed.

(** X8.  When [os.rename] fails, the exception that leaves [call_signing]
    is not a [SigningError]; the file still holds its original bytes, the
    signed archive stays behind under the temporary name, and [sign_file]
    lets the exception through without storing a serial number. *)
Theorem refused_rename_leaves_file_unsigned (STATUS_PUBLIC : Z)
    (settings : Settings) (X : Externals) (file_obj : File) (w : World)
    (endpoint : string) (orig : bytes) (sigs : string) (resp : Response)
    (pkcs7 : bytes) (serial : pyval) (chunks : list bytes) :
  get_endpoint STATUS_PUBLIC settings file_obj = Some endpoint ->
  fs w !! file_path file_obj = Some orig ->
  jar_signatures X orig = Some sigs ->
  requests_post X (signing_request settings file_obj endpoint sigs) = PostResponse resp ->
  status_code resp = 200 ->
  zigbert_rsa X (content resp) = Some pkcs7 ->
  get_signature_serial_number X pkcs7 = Some serial ->
  jar_make_signed X orig pkcs7 = (chunks, true) ->
  rename_permitted X (mktemp X (fs w)) (file_path file_obj) = false ->
  let tmp := mktemp X (fs w) in
  let w1 := push_all (events_until_post settings file_obj tmp endpoint sigs
                      ++ EvCreate tmp :: map (EvWrite tmp) chunks) w in
  exists name,
    call_signing STATUS_PUBLIC settings X file_obj w = (Raise (OtherException name), w1)
    /\ (can_be_signed file_obj = true ->
        sign_file STATUS_PUBLIC settings X file_obj w = (Raise (OtherException name), w1))
    /\ fs w1 = <[tmp := concat chunks]> (fs w)
    /\ fs w1 !! file_path file_obj = Some orig
    /\ db w1 = db w.
Proof.
  intros He Hf Hs Hp Hcode Hz Hn Hm Hr tmp w1. exists "OSError".
  assert (Hne : tmp <> file_path file_obj) by (now apply (fresh_differs X _ _ orig)).
  assert (Hfs : fs w1 = <[tmp := concat chunks]> (fs w)).
  { unfold w1. rewrite push_all_app, (fs_push_all (_ :: _)).
    rewrite fs_until_post by apply mktemp_fresh. apply replay_embed_all. }
  assert (Hc : call_signing STATUS_PUBLIC settings X file_obj w
               = (Raise (OtherException "OSError"), w1)).
  { rewrite (call_signing_answered _ _ _ _ _ _ _ _ _ He Hf Hs Hp Hcode).
    rewrite (apply_signature_decoded _ _ _ _ _ _ _ Hz).
    unfold bind at 1. rewrite (embed_run _ _ _ _ _ Hn). simpl jar_in. simpl jar_out.
    rewrite Hm. cbv zeta. simpl fst. simpl snd. cbv iota. fold tmp.
    unfold bind.
    rewrite (os_rename_run X tmp (file_path file_obj) _ (concat chunks)).
    - fold tmp in Hr. rewrite Hr. unfold w1. now rewrite push_all_app.
    - rewrite fs_push_all. apply replay_embed. }
  split; [exact Hc|]. split.
  - intros Hcan. now rewrite (sign_file_eligible _ _ _ _ _ Hcan), Hc.
  - split; [exact Hfs|]. split.
    + rewrite Hfs. now rewrite lookup_insert_ne.
    + apply db_push_all_quiet. rewrite forallb_app. simpl. now rewrite writes_no_db.
Qed.

(** X9.  After a successful [call_signing] the file system differs from
    the one before in exactly one place: the file holds the signed
    archive.  The temporary file is gone and every other file is as it
    was. *)
Theorem successful_signing_replaces_one_file (STATUS_PUBLIC : Z)
    (settings : Settings) (X : Externals) (file_obj : File) (w : World)
    (endpoint : string) (orig : bytes) (sigs : string) (resp : Response)
    (pkcs7 : bytes) (serial : pyval) (chunks : list bytes) :
  get_endpoint STATUS_PUBLIC settings file_obj = Some endpoint ->
  fs w !! file_path file_obj = Some orig ->
  jar_signatures X orig = Some sigs ->
  requests_post X (signing_request settings file_obj endpoint sigs) = PostResponse resp ->
  status_code resp = 200 ->
  zigbert_rsa X (content resp) = Some pkcs7 ->
  get_signature_serial_number X pkcs7 = Some serial ->
  jar_make_signed X orig pkcs7 = (chunks, true) ->
  rename_permitted X (mktemp X (fs w)) (file_path file_obj) = true ->
  fs (snd (call_signing STATUS_PUBLIC settings X file_obj w))
  = <[file_path file_obj := concat chunks]> (fs w)
  /\ fs (snd (call_signing STATUS_PUBLIC settings X file_obj w)) !! mktemp X (fs w) = None.
Proof.
  intros He Hf Hs Hp Hcode Hz Hn Hm Hr.
  set (tmp := mktemp X (fs w)).
  assert (Hne : tmp <> file_path file_obj) by (now apply (fresh_differs X _ _ orig)).
  rewrite (call_signing_signed _ _ _ _ _ _ _ _ _ _ _ _ He Hf Hs Hp Hcode Hz Hn Hm Hr).
  fold tmp. cbn [snd].
  assert (Hfs : fs (push_all (events_until_post settings file_obj tmp endpoint sigs
                              ++ (EvCreate tmp :: map (EvWrite tmp) chunks)
                              ++ [EvRename tmp (file_path file_obj)]) w)
                = <[file_path file_obj := concat chunks]> (fs w)).
  { rewrite !push_all_app, (fs_push_all [_]), (fs_push_all (_ :: _)).
    rewrite fs_until_post by apply mktemp_fresh.
    rewrite replay_embed_all. simpl. rewrite lookup_insert_eq.
    rewrite delete_insert_id by apply mktemp_fresh. reflexivity. }
  rewrite Hfs. split; [reflexivity|].
  rewrite lookup_insert_ne by congruence. apply mktemp_fresh.
Qed.

(** * Beyond the claims: what a run touches *)

Lemma JarExtractor_missing (X : Externals) (p out : string) (w : World) :
  fs w !! p = None ->
  JarExtractor X p out w = (Raise (OtherException "IOError"), w).
Proof.
  intros H. unfold JarExtractor, storage_open, bind, get_fs. now rewrite H.
Qed.

Lemma JarExtractor_rejected (X : Externals) (p out : string) (w : World) (b : bytes) :
  fs w !! p = Some b -> jar_signatures X b = None ->
  JarExtractor X p out w = (Raise (OtherException "BadZipfile"), push_all [EvRead p] w).
Proof.
  intros Hb Hs. unfold JarExtractor, storage_open, bind, get_fs.
  rewrite Hb. simpl. unfold emit, ret. now rewrite Hs.
Qed.

(** [call_signing] on a file that cannot be extracted, event by event. *)
Lemma call_signing_unextractable (STATUS_PUBLIC : Z) (settings : Settings)
    (X : Externals) (file_obj : File) (w : World) (endpoint : string) :
  get_endpoint STATUS_PUBLIC settings file_obj = Some endpoint ->
  extraction_fails X (fs w) (file_path file_obj) ->
  let tmp := mktemp X (fs w) in
  call_signing STATUS_PUBLIC settings X file_obj w
  = (Raise (SigningError "Archive extraction failed. Bad archive?"),
     push_all ([EvCreate tmp; EvUnlink tmp]
               ++ match fs w !! file_path file_obj with
                  | Some _ => [EvRead (file_path file_obj)]
                  | None => []
                  end
               ++ [EvLog ERROR "Archive extraction failed. Bad archive?"]) w).
Proof.
  intros He Hx tmp. unfold call_signing.
  rewrite He, (get_endpoint_nonempty _ _ _ _ He).
  rewrite (bind_ok _ _ _ _ _ (NamedTemporaryFile_run X w)). fold tmp.
  unfold extraction_fails in Hx.
  assert (Hfs : fs (push_all [EvCreate tmp; EvUnlink tmp] w) = fs w)
    by apply fs_after_tempfile.
  destruct (fs w !! file_path file_obj) as [b|] eqn:Hf.
  - erewrite bind_raise; [reflexivity|].
    erewrite try_raise; [|apply (JarExtractor_rejected X _ _ _ b); [now rewrite Hfs|exact Hx]].
    reflexivity.
  - erewrite bind_raise; [reflexivity|].
    erewrite try_raise; [|apply JarExtractor_missing; now rewrite Hfs].
    reflexivity.
Qed.

Lemma logs_within_footprint (p tmp : string) (logs : list event) :
  forallb is_log logs = true ->
  forallb (within_footprint p tmp) logs = true
  /\ List.filter is_post logs = [].
Proof.
  induction logs as [|e logs IH]; simpl; [now split|].
  intros H. apply andb_true_iff in H as [He Hr]. destruct (IH Hr) as [IH1 IH2].
  destruct e; try discriminate. simpl. now split.
Qed.

Lemma writes_within_footprint (p tmp : string) (chunks : list bytes) :
  forallb (within_footprint p tmp) (map (EvWrite tmp) chunks) = true
  /\ List.filter is_post (map (EvWrite tmp) chunks) = [].
Proof.
  induction chunks as [|c rest [IH1 IH2]]; simpl; [now split|].
  now rewrite String.eqb_refl.
Qed.

(** The events of [post_signature]: the request, its timing, and log
    lines. *)
Lemma post_signature_trace (X : Externals) (settings : Settings) (file_obj : File)
    (endpoint : string) (orig : bytes) (tmp sigs : string) (w : World) :
  exists r logs,
    post_signature X endpoint (SIGNING_SERVER_TIMEOUT settings)
      (addon_slug file_obj +:+ "-" +:+ version_string file_obj)
      {| jar_in := orig; jar_out := tmp; signatures := sigs |} w
    = (r, push_all (EvPost (signing_request settings file_obj endpoint sigs)
                    :: EvTiming "services.sign.addon" :: logs) w)
    /\ forallb is_log logs = true.
Proof.
  rewrite post_signature_for_file. cbv zeta.
  destruct (requests_post X (signing_request settings file_obj endpoint sigs))
    as [r | [st|] err | ].
  - destruct (negb (Z.eqb (status_code r) 200)).
    + now eexists _, [_].
    + now eexists _, [].
  - now eexists _, [_].
  - now eexists _, [].
  - now eexists _, [_].
Qed.

(** The events of lines 90-99: they concern the temporary file, and at the
    end the rename; nothing is posted. *)
Lemma apply_signature_trace (X : Externals) (file_obj : File) (tmp : string)
    (jar : Jar) (resp : Response) (w : World) :
  jar_out jar = tmp ->
  exists r evs,
    apply_signature X file_obj tmp jar resp w = (r, push_all evs w)
    /\ forallb (within_footprint (file_path file_obj) tmp) evs = true
    /\ List.filter is_post evs = [].
Proof.
  intros Hout.
  destruct (zigbert_rsa X (content resp)) as [pkcs7|] eqn:Hz.
  2: { exists (Raise (OtherException "ValueError")), [].
       split; [|now split]. unfold apply_signature. now rewrite Hz. }
  destruct (get_signature_serial_number X pkcs7) as [serial|] eqn:Hn.
  2: { exists (Raise (SigningError "Addon signing failed")),
              [EvLog ERROR "Addon signing failed"].
       split; [|now split].
       rewrite (apply_signature_decoded _ _ _ _ _ _ _ Hz).
       unfold bind at 1. unfold try_except at 1. unfold bind at 1. now rewrite Hn. }
  rewrite (apply_signature_decoded _ _ _ _ _ _ _ Hz).
  unfold bind at 1. rewrite (embed_run _ _ _ _ _ Hn), Hout.
  destruct (jar_make_signed X (jar_in jar) pkcs7) as [chunks fin] eqn:Hm.
  simpl fst. simpl snd. cbv zeta.
  destruct (writes_within_footprint (file_path file_obj) tmp chunks) as [Hw1 Hw2].
  destruct fin.
  - unfold bind.
    rewrite (os_rename_run X tmp (file_path file_obj) _ (concat chunks))
      by (rewrite fs_push_all; apply replay_embed).
    destruct (rename_permitted X tmp (file_path file_obj)).
    + exists (Ok (Some serial)),
             ((EvCreate tmp :: map (EvWrite tmp) chunks)
              ++ [EvRename tmp (file_path file_obj)])%list.
      split; [now rewrite push_all_app|]. split.
      * rewrite forallb_app. simpl. now rewrite !String.eqb_refl, Hw1.
      * rewrite List.filter_app. simpl. now rewrite Hw2.
    + exists (Raise (OtherException "OSError")),
             (EvCreate tmp :: map (EvWrite tmp) chunks).
      split; [reflexivity|]. simpl. now rewrite String.eqb_refl, Hw1, Hw2.
  - exists (Raise (SigningError "Addon signing failed")),
           ((EvCreate tmp :: map (EvWrite tmp) chunks)
            ++ [EvLog ERROR "Addon signing failed"])%list.
    split; [reflexivity|]. split.
    + rewrite forallb_app. simpl. now rewrite !String.eqb_refl, Hw1.
    + rewrite List.filter_app. simpl. now rewrite Hw2.
Qed.

(** Every run of [call_signing], whatever the file and the outside do:
    its events stay within the footprint, at most one request is posted
    (the one built for this file on its resolved endpoint), and an
    exception other than [SigningError] can only come after the archive
    was opened. *)
Lemma call_signing_events (STATUS_PUBLIC : Z) (settings : Settings)
    (X : Externals) (file_obj : File) (w : World) :
  exists evs,
    snd (call_signing STATUS_PUBLIC settings X file_obj w) = push_all evs w
    /\ forallb (within_footprint (file_path file_obj) (mktemp X (fs w))) evs = true
    /\ (List.filter is_post evs = []
        \/ exists endpoint orig sigs,
             get_endpoint STATUS_PUBLIC settings file_obj = Some endpoint
             /\ fs w !! file_path file_obj = Some orig
             /\ jar_signatures X orig = Some sigs
             /\ List.filter is_post evs
                = [EvPost (signing_request settings file_obj endpoint sigs)])
    /\ (forall name,
          fst (call_signing STATUS_PUBLIC settings X file_obj w)
          = Raise (OtherException name) ->
          In (EvRead (file_path file_obj)) evs).
Proof.
  set (tmp := mktemp X (fs w)). set (p := file_path file_obj).
  destruct (get_endpoint STATUS_PUBLIC settings file_obj) as [endpoint|] eqn:He.
  2: { exists [EvLog WARNING "Not signing: no active endpoint"].
       unfold call_signing. rewrite He.
       split; [reflexivity|]. split; [reflexivity|]. split; [now left|discriminate]. }
  destruct (fs w !! p) as [orig|] eqn:Hf.
  2: { assert (Hx : extraction_fails X (fs w) p).
       { unfold extraction_fails. now rewrite Hf. }
       rewrite (call_signing_unextractable _ _ _ _ _ _ He Hx). fold p. rewrite Hf.
       eexists. split; [reflexivity|]. fold tmp. simpl.
       rewrite String.eqb_refl.
       split; [reflexivity|]. split; [now left|discriminate]. }
  destruct (jar_signatures X orig) as [sigs|] eqn:Hs.
  2: { assert (Hx : extraction_fails X (fs w) p).
       { unfold extraction_fails. now rewrite Hf. }
       rewrite (call_signing_unextractable _ _ _ _ _ _ He Hx). fold p. rewrite Hf.
       eexists. split; [reflexivity|]. fold tmp. simpl.
       rewrite !String.eqb_refl.
       split; [reflexivity|]. split; [now left|discriminate]. }
  rewrite (call_signing_extracted _ _ _ _ _ _ _ _ He Hf Hs). fold tmp p.
  set (pre0 := [EvCreate tmp; EvUnlink tmp; EvRead p;
                EvLog INFO ("File signature contents: " +:+ sigs);
                EvLog INFO ("Calling signing service: " +:+ endpoint)]).
  set (req := signing_request settings file_obj endpoint sigs).
  assert (Hpre0 : forallb (within_footprint p tmp) pre0 = true).
  { simpl. now rewrite !String.eqb_refl. }
  assert (Hread : forall rest, In (EvRead p) (pre0 ++ rest)).
  { intros rest. apply in_or_app. left. simpl. tauto. }
  destruct (post_signature_trace X settings file_obj endpoint orig tmp sigs
              (push_all pre0 w)) as (r & logs & Hp & Hlogs).
  fold req in Hp.
  destruct (logs_within_footprint p tmp logs Hlogs) as [Hl1 Hl2].
  destruct r as [resp | e].
  - rewrite (bind_ok _ _ _ _ _ Hp).
    destruct (apply_signature_trace X file_obj tmp
                {| jar_in := orig; jar_out := tmp; signatures := sigs |} resp
                (push_all (EvPost req :: EvTiming "services.sign.addon" :: logs)
                   (push_all pre0 w)) eq_refl)
      as (r & evs & Ha & Hfoot & Hnone).
    fold p in Ha, Hfoot. rewrite Ha.
    exists (pre0 ++ (EvPost req :: EvTiming "services.sign.addon" :: logs) ++ evs)%list.
    split; [now rewrite !push_all_app|]. split; [|split].
    + rewrite !forallb_app, Hpre0, Hfoot. simpl. now rewrite Hl1.
    + right. exists endpoint, orig, sigs. repeat split; try assumption.
      rewrite !List.filter_app, Hnone. simpl. now rewrite Hl2.
    + intros name _. apply Hread.
  - rewrite (bind_raise _ _ _ _ _ Hp).
    exists (pre0 ++ (EvPost req :: EvTiming "services.sign.addon" :: logs))%list.
    split; [now rewrite !push_all_app|]. split; [|split].
    + rewrite !forallb_app, Hpre0. simpl. now rewrite Hl1.
    + right. exists endpoint, orig, sigs. repeat split; try assumption.
      rewrite !List.filter_app. simpl. now rewrite Hl2.
    + intros name _. apply Hread.
Qed.

Lemma attempted_read (file_obj : File) (evs : list event) :
  In (EvRead (file_path file_obj)) evs -> attempted file_obj evs = true.
Proof.
  intros H. apply existsb_exists. exists (EvRead (file_path file_obj)).
  split; [assumption|]. apply String.eqb_refl.
Qed.

(** Every run of [sign_file]: its events stay within its footprint, and
    they show that the file was tried. *)
Lemma sign_file_events (STATUS_PUBLIC : Z) (settings : Settings)
    (X : Externals) (file_obj : File) (w : World) :
  exists evs,
    snd (sign_file STATUS_PUBLIC settings X file_obj w) = push_all evs w
    /\ forallb (within_sign_file_footprint (pk file_obj) (file_path file_obj)
                  (mktemp X (fs w))) evs = true
    /\ attempted file_obj evs = true.
Proof.
  destruct (can_be_signed file_obj) eqn:Hcan.
  2: { unfold sign_file. rewrite Hcan. simpl. eexists [_].
       split; [reflexivity|]. split; [reflexivity|].
       simpl. rewrite String.eqb_refl. now rewrite ?orb_true_r. }
  rewrite (sign_file_eligible _ _ _ _ _ Hcan).
  destruct (call_signing_events STATUS_PUBLIC settings X file_obj w)
    as (evs & Hrun & Hfoot & _ & Hread).
  assert (Hfoot' : forallb (within_sign_file_footprint (pk file_obj) (file_path file_obj)
                              (mktemp X (fs w))) evs = true).
  { clear -Hfoot. induction evs as [|e evs IH]; [reflexivity|].
    simpl in *. apply andb_true_iff in Hfoot as [He Hr]. rewrite IH by assumption.
    rewrite andb_true_r.
    destruct e; simpl in *; try assumption; try discriminate. }
  destruct (call_signing STATUS_PUBLIC settings X file_obj w)
    as [[[serial|] | [msg|name]] w'] eqn:Hc; cbn [snd fst] in *; subst w'.
  - destruct (truthy serial); cbn [snd]; rewrite <- push_all_app; eexists;
      (split; [reflexivity|]); rewrite forallb_app, attempted_app, Hfoot'; simpl;
      rewrite ?Z.eqb_refl, String.eqb_refl; now rewrite ?orb_true_r.
  - rewrite <- push_all_app. eexists. split; [reflexivity|].
    rewrite forallb_app, attempted_app, Hfoot'. simpl.
    rewrite String.eqb_refl. now rewrite ?orb_true_r.
  - rewrite <- push_all_app. eexists. split; [reflexivity|].
    rewrite forallb_app, attempted_app, Hfoot'. simpl.
    rewrite String.eqb_refl. now rewrite ?orb_true_r.
  - exists evs. split; [reflexivity|]. split; [assumption|].
    apply attempted_read. now apply (Hread name).
Qed.

Lemma footprint_untouched (k : Z) (p tmp q : string) (evs : list event) :
  forallb (within_sign_file_footprint k p tmp) evs = true ->
  q <> p -> q <> tmp ->
  forallb (fun e => negb (touches q e)) evs = true.
Proof.
  intros H Hp Ht. induction evs as [|e evs IH]; [reflexivity|].
  simpl in *. apply andb_true_iff in H as [He Hr]. rewrite IH by assumption.
  rewrite andb_true_r.
  destruct e as [x|x|x|x c|src dst| | | |]; simpl in *; try reflexivity.
  - apply String.eqb_eq in He as ->. now rewrite bool_decide_eq_false_2 by congruence.
  - apply String.eqb_eq in He as ->. now rewrite bool_decide_eq_false_2 by congruence.
  - apply String.eqb_eq in He as ->. now rewrite bool_decide_eq_false_2 by congruence.
  - apply andb_true_iff in He as [Hs Hd].
    apply String.eqb_eq in Hs as ->. apply String.eqb_eq in Hd as ->.
    now rewrite !bool_decide_eq_false_2 by congruence.
Qed.

Lemma footprint_other_rows (k k' : Z) (p tmp : string) (evs : list event) (w : World) :
  forallb (within_sign_file_footprint k p tmp) evs = true ->
  k' <> k ->
  db (push_all evs w) !! k' = db w !! k'.
Proof.
  intros H Hk. revert w. induction evs as [|e evs IH]; intros w; [reflexivity|].
  simpl in *. apply andb_true_iff in H as [He Hr]. rewrite IH by assumption.
  destruct e; simpl in *; try reflexivity.
  apply Z.eqb_eq in He as ->. now rewrite lookup_insert_ne by congruence.
Qed.

(** One file's signing leaves the files that exist beside it, and the
    rows of other files, as they are. *)
Lemma sign_file_keeps_the_rest (STATUS_PUBLIC : Z) (settings : Settings)
    (X : Externals) (file_obj : File) (w : World) :
  (forall (q : string) (b : bytes),
     fs w !! q = Some b -> q <> file_path file_obj ->
     fs (snd (sign_file STATUS_PUBLIC settings X file_obj w)) !! q = Some b)
  /\ (forall k : Z,
        k <> pk file_obj ->
        db (snd (sign_file STATUS_PUBLIC settings X file_obj w)) !! k = db w !! k).
Proof.
  destruct (sign_file_events STATUS_PUBLIC settings X file_obj w)
    as (evs & Hrun & Hfoot & _).
  rewrite Hrun. split.
  - intros q b Hq Hne. rewrite fs_push_all, replay_untouched; [assumption|].
    apply (footprint_untouched _ _ _ _ _ Hfoot Hne).
    now apply not_eq_sym, (fresh_differs X _ _ b).
  - intros k Hk. now apply (footprint_other_rows _ _ _ _ _ _ Hfoot).
Qed.

(** X10.  Signing one file leaves every other existing file with its
    bytes, and every other file's serial number as it was, however the
    signing goes. *)
Theorem signing_one_file_keeps_the_others (STATUS_PUBLIC : Z) (settings : Settings)
    (X : Externals) (file_obj : File) (w : World) :
  (forall (q : string) (b : bytes),
     fs w !! q = Some b -> q <> file_path file_obj ->
     fs (snd (sign_file STATUS_PUBLIC settings X file_obj w)) !! q = Some b)
  /\ (forall k : Z,
        k <> pk file_obj ->
        db (snd (sign_file STATUS_PUBLIC settings X file_obj w)) !! k = db w !! k).
Proof. apply sign_file_keeps_the_rest. Qed.

(** X11.  [call_signing] posts at most one request, whatever happens: it
    never tries again.  When it posts, the request is the one built for
    this file: to the endpoint resolved for the file's status, with the
    configured timeout, the add-on's slug and version as [addon_id], and
    the manifest extracted from the file's own archive. *)
Theorem at_most_one_request_and_it_is_the_files (STATUS_PUBLIC : Z)
    (settings : Settings) (X : Externals) (file_obj : File) (w : World) :
  exists evs,
    snd (call_signing STATUS_PUBLIC settings X file_obj w) = push_all evs w
    /\ (List.filter is_post evs = []
        \/ exists endpoint orig sigs,
             get_endpoint STATUS_PUBLIC settings file_obj = Some endpoint
             /\ fs w !! file_path file_obj = Some orig
             /\ jar_signatures X orig = Some sigs
             /\ List.filter is_post evs
                = [EvPost {| req_endpoint := endpoint;
                             req_timeout := SIGNING_SERVER_TIMEOUT settings;
                             req_addon_id := addon_slug file_obj +:+ "-"
                                             +:+ version_string file_obj;
                             req_file := ("zigbert.sf", sigs) |}]).
Proof.
  destruct (call_signing_events STATUS_PUBLIC settings X file_obj w)
    as (evs & Hrun & _ & Hposts & _).
  exists evs. split; [exact Hrun|exact Hposts].
Qed.

(** * Beyond the claims: signing a version *)

(** Every run of the loop of [sign]: on a normal return every file of the
    list was tried, and in any case the files and rows that belong to none
    of them are as before. *)
Lemma sign_each_events (STATUS_PUBLIC : Z) (settings : Settings) (X : Externals)
    (files : list File) (w : World) :
  exists evs,
    snd (sign_each STATUS_PUBLIC settings X files w) = push_all evs w
    /\ (fst (sign_each STATUS_PUBLIC settings X files w) = Ok tt ->
        forall f, In f files -> attempted f evs = true)
    /\ (forall (q : string) (b : bytes),
          fs w !! q = Some b ->
          (forall f, In f files -> file_path f <> q) ->
          fs (push_all evs w) !! q = Some b)
    /\ (forall k : Z,
          (forall f, In f files -> pk f <> k) ->
          db (push_all evs w) !! k = db w !! k).
Proof.
  revert w. induction files as [|file_obj rest IH]; intros w.
  - exists []. split; [reflexivity|]. split; [intros _ f []|]. now split.
  - destruct (sign_file_events STATUS_PUBLIC settings X file_obj w)
      as (e1 & Hrun & _ & Hatt).
    destruct (sign_file_keeps_the_rest STATUS_PUBLIC settings X file_obj w)
      as [Hfs1 Hdb1].
    rewrite Hrun in Hfs1, Hdb1.
    destruct (sign_file STATUS_PUBLIC settings X file_obj w) as [[[]|e] w1] eqn:Hf;
      cbn [snd] in Hrun; subst w1;
      [rewrite (sign_each_ok STATUS_PUBLIC settings X file_obj rest w _ Hf)
      |rewrite (sign_each_raise STATUS_PUBLIC settings X file_obj rest w _ e Hf)].
    + set (w1 := push (EvTiming "services.sign.addon") (push_all e1 w)).
      destruct (IH w1) as (e2 & Hrun2 & Hatt2 & Hfs2 & Hdb2).
      assert (Hw : push_all (e1 ++ [EvTiming "services.sign.addon"] ++ e2) w
                   = push_all e2 w1).
      { now rewrite !push_all_app. }
      exists (e1 ++ [EvTiming "services.sign.addon"] ++ e2)%list.
      rewrite Hw. split; [exact Hrun2|]. split; [|split].
      * intros Hok f [<- | Hin].
        -- rewrite attempted_app, Hatt. reflexivity.
        -- rewrite !attempted_app, (Hatt2 Hok f Hin). now rewrite !orb_true_r.
      * intros q b Hq Hnone. apply Hfs2.
        -- unfold w1. simpl. apply Hfs1; [assumption|].
           apply not_eq_sym, Hnone. now left.
        -- intros f Hin. apply Hnone. now right.
      * intros k Hnone. rewrite Hdb2 by (intros f Hin; apply Hnone; now right).
        unfold w1. simpl. apply Hdb1. apply not_eq_sym, Hnone. now left.
    + exists (e1 ++ [EvTiming "services.sign.addon"])%list.
      split; [now rewrite push_all_app|]. split; [discriminate|].
      rewrite push_all_app. split.
      * intros q b Hq Hnone. simpl. apply Hfs1; [assumption|].
        apply not_eq_sym, Hnone. now left.
      * intros k Hnone. simpl. apply Hdb1. apply not_eq_sym, Hnone. now left.
Qed.

Lemma nothing_signable (files : list File) :
  (forall f, In f files -> can_be_signed f = false) ->
  List.filter can_be_signed files = [].
Proof.
  intros H. induction files as [|f rest IH]; [reflexivity|].
  simpl. rewrite (H f) by now left. apply IH. intros g Hg. apply H. now right.
Qed.

(** X12.  A version that has files, none of which can be signed, is not
    an error: [sign] logs that it signs the version and returns, having
    tried no file, posted nothing and changed nothing. *)
Theorem sign_with_nothing_signable (STATUS_PUBLIC : Z) (settings : Settings)
    (X : Externals) (version : Version) (w : World) :
  all_files version <> [] ->
  (forall f, In f (all_files version) -> can_be_signed f = false) ->
  sign STATUS_PUBLIC settings X version w
  = (Ok tt,
     push_all [EvLog INFO ("Signing version: " +:+ pretty (version_pk version))] w).
Proof.
  intros Hfiles Hnone. rewrite (sign_nonempty _ _ _ _ _ Hfiles).
  now rewrite (nothing_signable _ Hnone).
Qed.

(** X13.  When [sign] returns normally, every signable file of the version
    has been tried: for each one the trace of this run shows its archive
    opened or [sign_file]'s report on it. *)
Theorem sign_success_tried_every_signable_file (STATUS_PUBLIC : Z)
    (settings : Settings) (X : Externals) (version : Version) (w : World) :
  fst (sign STATUS_PUBLIC settings X version w) = Ok tt ->
  exists evs,
    snd (sign STATUS_PUBLIC settings X version w) = push_all evs w
    /\ forall f, In f (all_files version) -> can_be_signed f = true ->
                 attempted f evs = true.
Proof.
  intros Hok.
  destruct (all_files version) as [|f0 rest] eqn:Hfiles.
  { unfold sign in Hok. rewrite Hfiles in Hok. discriminate. }
  assert (Hne : all_files version <> []) by (rewrite Hfiles; discriminate).
  rewrite (sign_nonempty _ _ _ _ _ Hne) in *. rewrite Hfiles in *.
  set (w0 := push (EvLog INFO ("Signing version: " +:+ pretty (version_pk version))) w) in *.
  destruct (sign_each_events STATUS_PUBLIC settings X
              (List.filter can_be_signed (f0 :: rest)) w0)
    as (evs & Hrun & Hatt & _).
  exists (EvLog INFO ("Signing version: " +:+ pretty (version_pk version)) :: evs).
  split; [exact Hrun|].
  intros f Hin Hcan.
  change (attempted f ([EvLog INFO ("Signing version: " +:+ pretty (version_pk version))]
                       ++ evs) = true).
  rewrite attempted_app, (Hatt Hok f); [now rewrite orb_true_r|].
  apply filter_In. now split.
Qed.

(** X14.  Whatever happens while a version is signed, a file that exists
    and is not one of the version's signable files keeps its bytes, and a
    row that belongs to none of them keeps its serial number. *)
Theorem sign_keeps_unrelated_files_and_rows (STATUS_PUBLIC : Z)
    (settings : Settings) (X : Externals) (version : Version) (w : World) :
  (forall (q : string) (b : bytes),
     fs w !! q = Some b ->
     (forall f, In f (all_files version) -> can_be_signed f = true -> file_path f <> q) ->
     fs (snd (sign STATUS_PUBLIC settings X version w)) !! q = Some b)
  /\ (forall k : Z,
        (forall f, In f (all_files version) -> can_be_signed f = true -> pk f <> k) ->
        db (snd (sign STATUS_PUBLIC settings X version w)) !! k = db w !! k).
Proof.
  destruct (all_files version) as [|f0 rest] eqn:Hfiles.
  { unfold sign. rewrite Hfiles. simpl. now split. }
  assert (Hne : all_files version <> []) by (rewrite Hfiles; discriminate).
  rewrite (sign_nonempty _ _ _ _ _ Hne). rewrite Hfiles.
  set (w0 := push (EvLog INFO ("Signing version: " +:+ pretty (version_pk version))) w).
  destruct (sign_each_events STATUS_PUBLIC settings X
              (List.filter can_be_signed (f0 :: rest)) w0)
    as (evs & Hrun & _ & Hfs & Hdb).
  rewrite Hrun. split.
  - intros q b Hq Hnone. apply Hfs; [exact Hq|].
    intros f Hin. apply filter_In in Hin as [Hin Hcan]. now apply Hnone.
  - intros k Hnone. rewrite Hdb; [reflexivity|].
    intros f Hin. apply filter_In in Hin as [Hin Hcan]. now apply Hnone.
Qed.

(** * The other outcomes on the fake service *)

(** The service cannot be reached. *)
Lemma transport_failure_is_signing_error_on_fixture :
  fst (call_signing STATUS_PUBLIC settings unreachable public_file world)
  = Raise (SigningError "Posting to add-on signing failed")
  /\ fs (snd (call_signing STATUS_PUBLIC settings unreachable public_file world))
     = fs world.
Proof.
  destruct (transport_failure_is_signing_error STATUS_PUBLIC settings unreachable
              public_file world "https://signing.example/1.0/sign_addon" xpi
              "SHA1-Digest-Manifest: x")
    as (Hcall & _ & Hfs & _); [reflexivity .. |].
  rewrite Hcall. split; [reflexivity|exact Hfs].
Defined.

(** The service raises [HTTPError] with status 502. *)
Lemma http_error_is_signing_error_on_fixture :
  fst (call_signing STATUS_PUBLIC settings bad_gateway public_file world)
  = Raise (SigningError "Posting to add-on signing failed: 502, Bad Gateway").
Proof.
  destruct (http_error_is_signing_error STATUS_PUBLIC settings bad_gateway
              public_file world "https://signing.example/1.0/sign_addon" xpi
              "SHA1-Digest-Manifest: x" "502" "Bad Gateway")
    as (Hcall & _); [reflexivity .. |].
  now rewrite Hcall.
Defined.

(** The service answers 201. *)
Lemma other_2xx_is_rejected_on_fixture :
  fst (call_signing STATUS_PUBLIC settings created public_file world)
  = Raise (SigningError "Posting to add-on signing failed Created")
  /\ fs (snd (call_signing STATUS_PUBLIC settings created public_file world)) = fs world.
Proof.
  destruct (other_2xx_is_rejected STATUS_PUBLIC settings created
              public_file world "https://signing.example/1.0/sign_addon" xpi
              "SHA1-Digest-Manifest: x"
              {| status_code := 201; reason := "Created"; content := "MIIBzigbert" |})
    as (Hcall & Hfs & _); [reflexivity | reflexivity | reflexivity | reflexivity
                          | simpl; lia | ].
  split; [exact Hcall|exact Hfs].
Defined.

(** The service answers 200 with an empty body. *)
Lemma undecodable_body_escapes_as_other_exception_on_fixture :
  exists name,
    sign_file STATUS_PUBLIC settings empty_body public_file world
    = (Raise (OtherException name),
       push_all (events_until_post settings public_file (mktemp empty_body (fs world))
                   "https://signing.example/1.0/sign_addon" "SHA1-Digest-Manifest: x")
         world).
Proof.
  destruct (undecodable_body_escapes_as_other_exception STATUS_PUBLIC settings empty_body
              public_file world "https://signing.example/1.0/sign_addon" xpi
              "SHA1-Digest-Manifest: x"
              {| status_code := 200; reason := "OK"; content := "" |})
    as (name & _ & Hsign & _); [reflexivity .. |].
  exists name. now apply Hsign.
Defined.

(** The certificate does not parse. *)
Lemma unparsable_certificate_is_signing_error_on_fixture :
  fst (call_signing STATUS_PUBLIC settings unparsable public_file world)
  = Raise (SigningError "Addon signing failed")
  /\ fs (snd (call_signing STATUS_PUBLIC settings unparsable public_file world))
     = fs world.
Proof.
  destruct (unparsable_certificate_is_signing_error STATUS_PUBLIC settings unparsable
              public_file world "https://signing.example/1.0/sign_addon" xpi
              "SHA1-Digest-Manifest: x"
              {| status_code := 200; reason := "OK"; content := "MIIBzigbert" |}
              (list_byte_of_string "MIIBzigbert"))
    as (Hcall & Hfs & _); [reflexivity .. |].
  rewrite Hcall. split; [reflexivity|exact Hfs].
Defined.

(** [make_signed] stops after the first piece. *)
Lemma interrupted_embedding_leaves_temporary_file_on_fixture :
  fst (call_signing STATUS_PUBLIC settings interrupted public_file world)
  = Raise (SigningError "Addon signing failed")
  /\ fs (snd (call_signing STATUS_PUBLIC settings interrupted public_file world))
     !! mktemp interrupted (fs world) = Some xpi
  /\ fs (snd (call_signing STATUS_PUBLIC settings interrupted public_file world))
     !! "/storage/7/addon.xpi" = Some xpi.
Proof.
  destruct (interrupted_embedding_leaves_temporary_file STATUS_PUBLIC settings interrupted
              public_file world "https://signing.example/1.0/sign_addon" xpi
              "SHA1-Digest-Manifest: x"
              {| status_code := 200; reason := "OK"; content := "MIIBzigbert" |}
              (list_byte_of_string "MIIBzigbert") (PyInt 4096) [xpi])
    as (Hcall & Hfs & Hfile & _); [reflexivity .. |].
  split; [exact Hcall|]. split; [|exact Hfile].
  rewrite Hfs. reflexivity.
Defined.

(** The rename is refused. *)
Lemma refused_rename_leaves_file_unsigned_on_fixture :
  exists name w1,
    sign_file STATUS_PUBLIC settings read_only public_file world
    = (Raise (OtherException name), w1)
    /\ fs w1 !! "/storage/7/addon.xpi" = Some xpi
    /\ db w1 = db world.
Proof.
  destruct (refused_rename_leaves_file_unsigned STATUS_PUBLIC settings read_only
              public_file world "https://signing.example/1.0/sign_addon" xpi
              "SHA1-Digest-Manifest: x"
              {| status_code := 200; reason := "OK"; content := "MIIBzigbert" |}
              (list_byte_of_string "MIIBzigbert") (PyInt 4096)
              [xpi; list_byte_of_string "MIIBzigbert"])
    as (name & _ & Hsign & _ & Hfile & Hdb); [reflexivity .. |].
  exists name. eexists. split; [now apply Hsign|]. split; [exact Hfile|exact Hdb].
Defined.

(** Everything works: one file changed, no temporary file left. *)
Lemma successful_signing_replaces_one_file_on_fixture :
  fs (snd (call_signing STATUS_PUBLIC settings healthy public_file world))
  = <["/storage/7/addon.xpi" := (xpi ++ list_byte_of_string "MIIBzigbert")%list]>
      (fs world)
  /\ fs (snd (call_signing STATUS_PUBLIC settings healthy public_file world))
     !! mktemp healthy (fs world) = None.
Proof.
  destruct (successful_signing_replaces_one_file STATUS_PUBLIC settings healthy
              public_file world "https://signing.example/1.0/sign_addon" xpi
              "SHA1-Digest-Manifest: x"
              {| status_code := 200; reason := "OK"; content := "MIIBzigbert" |}
              (list_byte_of_string "MIIBzigbert") (PyInt 4096)
              [xpi; list_byte_of_string "MIIBzigbert"])
    as (Hfs & Htmp); [reflexivity .. |].
  split; [exact Hfs|exact Htmp].
Defined.

(** A version that holds a search plugin only. *)
Lemma sign_with_nothing_signable_on_fixture :
  sign STATUS_PUBLIC settings healthy plugin_version world
  = (Ok tt, push_all [EvLog INFO "Signing version: 5"] world).
Proof.
  apply (sign_with_nothing_signable STATUS_PUBLIC settings healthy plugin_version world).
  - discriminate.
  - intros f [<- | []]. reflexivity.
Defined.

(** A version with two sound archives and a search plugin. *)
Lemma sign_success_tried_every_signable_file_on_fixture :
  exists evs,
    snd (sign STATUS_PUBLIC settings healthy sound_version world) = push_all evs world
    /\ attempted public_file evs = true
    /\ attempted unreviewed_file evs = true.
Proof.
  destruct (sign_success_tried_every_signable_file STATUS_PUBLIC settings healthy
              sound_version world) as (evs & Hrun & Hatt).
  - vm_compute. reflexivity.
  - exists evs. split; [exact Hrun|]. split; apply Hatt; simpl; tauto.
Defined.

(** * Beyond the claims: what a return of [None] means *)


